(** * VectHare storage backends: a shallow embedding and its properties

    The development embeds the four backend adapters of the repository
    (the host-native/plugin hybrid [StandardBackend], and the plugin-backed
    [LanceDBBackend], [QdrantBackend] and [MilvusBackend]) together with the
    provider parameter resolver of [core/providers.js], and settles the
    claims C1 to C10 of the specification against them.

    Conventions of the embedding.
    - Every JavaScript value that crosses the JSON boundary is a [Json]
      tree.  Numbers are rationals: the code compares and forwards them and
      never computes with them.  Strings are sequences of bytes, the
      WTF-8 encoding of the JavaScript string: the separators the code
      splits on are ASCII, and a surrogate that is not part of a pair is
      the byte ED followed by a byte in A0..BF.  Objects are association
      lists of own properties in insertion order; the reordering of
      integer-like keys is not modelled (it does not change what a property
      read returns), and the prototype of an object is not part of its
      value.
    - [JSON.stringify] is the normalisation [stringify]: the tree a peer
      obtains after parsing the serialised text.
    - An [async] method is a value of the free monad [Async]: it returns,
      throws, or performs one [fetch] and continues with its outcome.  A
      transport ([Server]) answers each request, possibly changing its own
      state; [run] interprets a method against a transport and records the
      requests that were issued.
    - The module-level state of the host application is the record [Host],
      passed explicitly to the code that reads it; it also carries the one
      limit of the engine the code can run into, the number of arguments a
      call accepts.
    - A template literal is kept as the list of its parts ([Template]).
    - Console output is diagnostics only and is left out.
    - The stores behind the endpoints are not part of the repository; where
      a property speaks of what a store returns or removes, it is stated
      against the reference transport of module [Reference]. *)

From Stdlib Require Import List String Ascii ZArith QArith Qround Bool Lia.
From Stdlib Require Import DecimalString Sorted.
Import ListNotations.
Local Open Scope string_scope.
Local Open Scope list_scope.

Set Implicit Arguments.

(* ====================================================================== *)
(** ** JavaScript values *)
(* ====================================================================== *)

#[warnings="-register-all"]
Inductive Json : Type :=
| JUndefined
| JNull
| JBool (b : bool)
| JNum (q : Q)
| JStr (s : string)
| JArr (xs : list Json)
| JObj (fields : list (string * Json)).

(** A plain object: own enumerable properties in insertion order. *)
Definition obj := list (string * Json).

Definition JInt (z : Z) : Json := JNum (inject_Z z).

(** ToBoolean. *)
Definition truthy (v : Json) : bool :=
  match v with
  | JUndefined | JNull => false
  | JBool b => b
  | JNum q => negb (Qeq_bool q 0)
  | JStr s => negb (String.eqb s "")
  | JArr _ | JObj _ => true
  end.

(** [typeof v === 'string']. *)
Definition is_string (v : Json) : bool :=
  match v with JStr _ => true | _ => false end.


(** [a || b] and [a ?? b]. *)
Definition js_or (a b : Json) : Json := if truthy a then a else b.

Definition nullish (v : Json) : bool :=
  match v with JUndefined | JNull => true | _ => false end.

Definition js_coalesce (a b : Json) : Json := if nullish a then b else a.

(** Own-property lookup on an object; a missing key reads [undefined]. *)
Fixpoint obj_get (o : obj) (k : string) : Json :=
  match o with
  | [] => JUndefined
  | (k', v) :: r => if String.eqb k' k then v else obj_get r k
  end.

Fixpoint obj_has (o : obj) (k : string) : bool :=
  match o with
  | [] => false
  | (k', _) :: r => String.eqb k' k || obj_has r k
  end.

(** [o[k] = v]: an existing key keeps its place, a new one goes last. *)
Fixpoint obj_set (o : obj) (k : string) (v : Json) : obj :=
  match o with
  | [] => [(k, v)]
  | (k', v') :: r =>
      if String.eqb k' k then (k', v) :: r else (k', v') :: obj_set r k v
  end.

(** An object literal [{k1: v1, ...more}] evaluated left to right. *)
Definition obj_assign (o src : obj) : obj :=
  fold_left (fun acc kv => obj_set acc (fst kv) (snd kv)) src o.

Definition obj_lit (fields : obj) : obj := obj_assign [] fields.

(** [o[k] = v] on an object that inherits from [Object.prototype], for a
    value [v] that is an object (the adapters store Query Results): the
    key ["__proto__"] reaches the inherited setter, which replaces the
    prototype of [o] and adds no own property; every other key is written
    as an own property. *)
Definition assign (o : obj) (k : string) (v : Json) : obj :=
  if String.eqb k "__proto__" then o else obj_set o k v.

Definition index_key (n : nat) : string :=
  NilZero.string_of_uint (Nat.to_uint n).

Fixpoint indexed (n : nat) (xs : list Json) : obj :=
  match xs with
  | [] => []
  | x :: r => (index_key n, x) :: indexed (S n) r
  end.

Fixpoint chars (s : string) : list Json :=
  match s with
  | EmptyString => []
  | String c r => JStr (String c EmptyString) :: chars r
  end.

(** The own enumerable properties copied by a spread [...v]: those of an
    object, the indices of an array or of a string, nothing for the rest
    (spreading [null] or [undefined] in an object literal is allowed).  A
    string is spread byte by byte, which is exact on ASCII text. *)
Definition own_props (v : Json) : obj :=
  match v with
  | JObj o => o
  | JArr xs => indexed 0 xs
  | JStr s => indexed 0 (chars s)
  | _ => []
  end.

(** [JSON.stringify] followed by the peer's parse: properties whose value
    is [undefined] are dropped, [undefined] array slots become [null]. *)
Fixpoint stringify (v : Json) : Json :=
  match v with
  | JArr xs =>
      JArr (map (fun x => match x with
                          | JUndefined => JNull
                          | _ => stringify x
                          end) xs)
  | JObj o =>
      JObj ((fix fields (o : list (string * Json)) : list (string * Json) :=
               match o with
               | [] => []
               | (k, x) :: r =>
                   match x with
                   | JUndefined => fields r
                   | _ => (k, stringify x) :: fields r
                   end
               end) o)
  | _ => v
  end.

(** Property read on the wire form of a request body. *)
Definition body_get (body : Json) (k : string) : Json :=
  match body with
  | JObj o => obj_get o k
  | _ => JUndefined
  end.

(* ====================================================================== *)
(** ** Strings: [split] and [join] on a one-character separator *)
(* ====================================================================== *)

(** [s.split(sep)] for a separator of one character. *)
Fixpoint split (sep : ascii) (s : string) : list string :=
  match s with
  | EmptyString => [EmptyString]
  | String c r =>
      if Ascii.eqb c sep then EmptyString :: split sep r
      else match split sep r with
           | [] => [String c EmptyString]
           | h :: t => String c h :: t
           end
  end.

(** [parts.join(sep)]. *)
Fixpoint join (sep : ascii) (parts : list string) : string :=
  match parts with
  | [] => EmptyString
  | [p] => p
  | p :: r => p ++ String sep (join sep r)
  end.

(** [parts.slice(n)]. *)
Definition slice (n : nat) (parts : list string) : list string := skipn n parts.

Fixpoint contains (sep : ascii) (s : string) : bool :=
  match s with
  | EmptyString => false
  | String c r => Ascii.eqb c sep || contains sep r
  end.

(* ====================================================================== *)
(** ** Exceptions, responses and the [Async] monad *)
(* ====================================================================== *)

(** The parts of a template literal, kept unevaluated. *)
Inductive Part : Type :=
| Lit (s : string)                 (* literal text *)
| Val (v : Json)                   (* [${v}] *)
| Num (z : Z)                      (* [${response.status}] *)
| Enc (v : Json)                   (* [${encodeURIComponent(v)}] *)
| Params (o : obj).                (* [new URLSearchParams(o)] *)

Definition Template := list Part.

(** What a [catch] clause can receive. *)
Inductive JsError : Type :=
| Error (message : Template)       (* [new Error(message)] *)
| TypeError (what : string)        (* property of null/undefined, not a function *)
| SyntaxError                      (* [response.json()] on a body that is not JSON *)
| NetworkError                     (* [fetch] rejected *)
| URIError                         (* [encodeURIComponent] on an unpaired surrogate *)
| RangeError.                      (* a call with more arguments than the engine accepts *)

Inductive Result (A : Type) : Type :=
| Ok (a : A)
| Thrown (e : JsError).
Arguments Ok {A} a.
Arguments Thrown {A} e.

Record Request := mkRequest {
  url : Template;
  method : string;
  headers : bool;                  (* [headers: getRequestHeaders()] given *)
  body : option Json               (* [JSON.stringify(...)], in wire form *)
}.

Record Response := mkResponse {
  status : Z;
  statusText : string;
  json_body : option Json;         (* [None]: the body does not parse *)
  text_body : option string        (* [None]: reading the body fails *)
}.

(** [response.ok]. *)
Definition ok (r : Response) : bool := (200 <=? status r)%Z && (status r <=? 299)%Z.

Inductive FetchOutcome : Type :=
| Rejected
| Responded (r : Response).

Inductive Async (A : Type) : Type :=
| Return (a : A)
| Throw (e : JsError)
| Fetch (req : Request) (k : FetchOutcome -> Async A).
Arguments Return {A} a.
Arguments Throw {A} e.
Arguments Fetch {A} req k.

Fixpoint bind {A B} (p : Async A) (f : A -> Async B) : Async B :=
  match p with
  | Return a => f a
  | Throw e => Throw e
  | Fetch req k => Fetch req (fun o => bind (k o) f)
  end.

(** [try { p } catch (e) { h e }]. *)
Fixpoint try_catch {A} (p : Async A) (h : JsError -> Async A) : Async A :=
  match p with
  | Return a => Return a
  | Throw e => h e
  | Fetch req k => Fetch req (fun o => try_catch (k o) h)
  end.

Declare Scope async_scope.
Delimit Scope async_scope with async.
Notation "x <- p ;; q" := (bind p (fun x => q))
  (at level 61, p at next level, right associativity) : async_scope.
Notation "p ;;; q" := (bind p (fun _ => q))
  (at level 61, right associativity) : async_scope.
Local Open Scope async_scope.

(** [await fetch(url, init)]. *)
Definition fetch (req : Request) : Async Response :=
  Fetch req (fun o => match o with
                      | Rejected => Throw NetworkError
                      | Responded r => Return r
                      end).

Definition POST (path : string) (b : obj) : Request :=
  mkRequest [Lit path] "POST" true (Some (stringify (JObj b))).

Definition PATCH (u : Template) (b : obj) : Request :=
  mkRequest u "PATCH" true (Some (stringify (JObj b))).

Definition GET (u : Template) : Request :=
  mkRequest u "GET" true None.

Definition lift {A} (r : Result A) : Async A :=
  match r with Ok a => Return a | Thrown e => Throw e end.

(** *** Conversions to a string *)

(** [String(v)] throws a TypeError on an object with an own [toString]
    property: no [Json] value is callable, so the conversion falls through
    to the inherited [valueOf], which returns the object itself.  An array
    converts its elements in turn ([join]), and throws when one of them
    does. *)
Fixpoint unprintable (v : Json) : bool :=
  match v with
  | JObj o => obj_has o "toString"
  | JArr xs => existsb unprintable xs
  | _ => false
  end.

(** Whether a string holds a surrogate that is not part of a pair. *)
Fixpoint unpaired_surrogate (s : string) : bool :=
  match s with
  | String c ((String d _) as r) =>
      (Ascii.eqb c (ascii_of_nat 237)
       && (160 <=? nat_of_ascii d)%nat && (nat_of_ascii d <=? 191)%nat)
      || unpaired_surrogate r
  | _ => false
  end.

(** Whether [String(v)] holds one: the elements of an array are joined
    with commas, so no pair forms across them, and the other values
    convert to ASCII text. *)
Fixpoint ill_formed (v : Json) : bool :=
  match v with
  | JStr s => unpaired_surrogate s
  | JArr xs => existsb ill_formed xs
  | _ => false
  end.

(** [encodeURIComponent(v)]: the conversion of [v] to a string, then the
    encoding, which throws a URIError on an unpaired surrogate. *)
Definition encodeURIComponent (v : Json) : Result Part :=
  if unprintable v then Thrown (TypeError "toString")
  else if ill_formed v then Thrown URIError
  else Ok (Enc v).

(** [new URLSearchParams(o)]: every value is converted to a string (an
    unpaired surrogate is replaced, not refused). *)
Definition URLSearchParams (o : obj) : Result Part :=
  if existsb (fun kv => unprintable (snd kv)) o then Thrown (TypeError "toString")
  else Ok (Params o).

(** [await response.json()]. *)
Definition json (r : Response) : Async Json :=
  match json_body r with
  | Some v => Return v
  | None => Throw SyntaxError
  end.

(** [await response.text().catch(() => 'No response body')]. *)
Definition text_or_default (r : Response) : string :=
  match text_body r with
  | Some t => t
  | None => "No response body"
  end.

(** [v.k] for the property names the adapters read ([hash], [text],
    [score], [metadata], [results], ...): reading a property of [null] or
    [undefined] throws; a number, a boolean, a string or an array has none
    of these properties. *)
Definition prop (v : Json) (k : string) : Result Json :=
  match v with
  | JUndefined | JNull => Thrown (TypeError k)
  | JObj o => Ok (obj_get o k)
  | _ => Ok JUndefined
  end.

(** [v.map(f)]: only an array has the method. *)
Fixpoint mapM {A B} (f : A -> Result B) (xs : list A) : Result (list B) :=
  match xs with
  | [] => Ok []
  | x :: r =>
      match f x with
      | Thrown e => Thrown e
      | Ok y => match mapM f r with
                | Thrown e => Thrown e
                | Ok ys => Ok (y :: ys)
                end
      end
  end.

Definition js_map (v : Json) (f : Json -> Result Json) : Result Json :=
  match v with
  | JArr xs => match mapM f xs with
               | Ok ys => Ok (JArr ys)
               | Thrown e => Thrown e
               end
  | JUndefined | JNull => Thrown (TypeError "map")
  | _ => Thrown (TypeError "map is not a function")
  end.

(** [for (const x of xs) { body }] threading the loop's accumulator. *)
Fixpoint for_of {A S} (xs : list A) (acc : S) (body : S -> A -> Async S) : Async S :=
  match xs with
  | [] => Return acc
  | x :: r => acc' <- body acc x ;; for_of r acc' body
  end.

(** A transport: answers a request and moves to its next state. *)
Definition Server (S : Type) := S -> Request -> S * FetchOutcome.

Record Run (S A : Type) := mkRun {
  final : S;
  trace : list Request;
  result : Result A
}.

Fixpoint run {S A} (srv : Server S) (p : Async A) (s : S) : Run S A :=
  match p with
  | Return a => mkRun s [] (Ok a)
  | Throw e => mkRun s [] (Thrown e)
  | Fetch req k =>
      let '(s', o) := srv s req in
      let r := run srv (k o) s' in
      mkRun (final r) (req :: trace r) (result r)
  end.

(* ====================================================================== *)
(** ** core/providers.js *)
(* ====================================================================== *)

(** The host application's module-level state read by this layer
    ([extension_settings], [textgenerationwebui_settings.server_urls],
    [textgen_types], [oai_settings], [secret_state]).  The host owns and
    mutates it; the layer only reads it.  A secret entry is what the host
    stores: a list of secret objects, or some other value. *)
Inductive SecretEntry : Type :=
| SecretList (secrets : list obj)
| SecretOther (v : Json).

Record Host := mkHost {
  extension_settings : obj;
  server_urls : obj;
  textgen_types_OLLAMA : string;
  textgen_types_LLAMACPP : string;
  textgen_types_VLLM : string;
  oai_settings : obj;
  secret_state : list (string * SecretEntry);
  max_arguments : Z                (* the most arguments one call accepts *)
}.

Record ProviderConfig := mkProvider {
  name : string;
  local : bool;
  requiresModel : bool;
  modelField : option string;
  requiresApiKey : bool;
  requiresUrl : bool
}.

(** [EMBEDDING_PROVIDERS] (the [secretKey] entries name host constants and
    are not needed here). *)
Definition EMBEDDING_PROVIDERS : list (string * ProviderConfig) :=
  [ ("transformers", mkProvider "Local (Transformers)" true false None false false);
    ("webllm", mkProvider "WebLLM Extension" true true (Some "webllm_model") false false);
    ("bananabread", mkProvider "BananaBread" true false None true true);
    ("ollama", mkProvider "Ollama" true true (Some "ollama_model") false true);
    ("llamacpp", mkProvider "llama.cpp" true false None false true);
    ("koboldcpp", mkProvider "KoboldCpp" true false None false true);
    ("vllm", mkProvider "vLLM" true true (Some "vllm_model") false true);
    ("openai", mkProvider "OpenAI" false true (Some "openai_model") true false);
    ("cohere", mkProvider "Cohere" false true (Some "cohere_model") true false);
    ("togetherai", mkProvider "TogetherAI" false true (Some "togetherai_model") true false);
    ("openrouter", mkProvider "OpenRouter" false true (Some "openrouter_model") true false);
    ("mistral", mkProvider "MistralAI" false true (Some "mistral_model") true false);
    ("nomicai", mkProvider "NomicAI" false false None true false);
    ("palm", mkProvider "Google AI Studio" false true (Some "google_model") true false);
    ("vertexai", mkProvider "Google Vertex AI" false true (Some "google_model") true false);
    ("electronhub", mkProvider "Electron Hub" false true (Some "electronhub_model") true false);
    ("extras", mkProvider "Extras (deprecated)" false false None false true) ].

(** The property name a value denotes when used as a key, as far as it can
    spell an identifier: a string is its own key and a one-element array
    converts to the key of its element; no other value converts to a
    provider name. *)
Fixpoint key_name (v : Json) : option string :=
  match v with
  | JStr s => Some s
  | JArr [x] => key_name x
  | _ => None
  end.

Fixpoint assoc {A} (k : string) (l : list (string * A)) : option A :=
  match l with
  | [] => None
  | (k', a) :: r => if String.eqb k' k then Some a else assoc k r
  end.

(** [getModelField]: [EMBEDDING_PROVIDERS[providerId]?.modelField || null]. *)
Definition getModelField (providerId : Json) : Json :=
  match key_name providerId with
  | Some k =>
      match assoc k EMBEDDING_PROVIDERS with
      | Some cfg =>
          js_or (match modelField cfg with Some f => JStr f | None => JUndefined end)
                JNull
      | None => JNull
      end
  | None => JNull
  end.

(** [getModelFromSettings] (the same helper opens each backend file). *)
Definition getModelFromSettings (settings : obj) : Json :=
  let modelField := getModelField (obj_get settings "source") in
  if truthy modelField then
    match modelField with
    | JStr f => js_or (obj_get settings f) (JStr "")
    | _ => JStr ""
    end
  else JStr "".

(** [secrets.find(s => s.active)]. *)
Fixpoint find_active (secrets : list obj) : Json :=
  match secrets with
  | [] => JUndefined
  | s :: r => if truthy (obj_get s "active") then JObj s else find_active r
  end.

Definition first_secret (secrets : list obj) : Json :=
  match secrets with
  | [] => JUndefined
  | s :: _ => JObj s
  end.

(** [settings.use_alt_endpoint ? settings.alt_endpoint_url : dflt]. *)
Definition endpoint (settings : obj) (dflt : Json) : Json :=
  if truthy (obj_get settings "use_alt_endpoint")
  then obj_get settings "alt_endpoint_url"
  else dflt.

(** [case 'name':] of a [switch]: strict equality with a string literal. *)
Definition is_case (v : Json) (label : string) : bool :=
  match v with
  | JStr s => String.eqb s label
  | _ => false
  end.

(** [getProviderSpecificParams(settings, isQuery)]. *)
Definition getProviderSpecificParams (host : Host) (settings : obj) (isQuery : bool) : obj :=
  let params : obj := [] in
  let source := obj_get settings "source" in
  if is_case source "extras" then
    let params := obj_set params "extrasUrl" (obj_get (extension_settings host) "apiUrl") in
    obj_set params "extrasKey" (obj_get (extension_settings host) "apiKey")
  else if is_case source "cohere" then
    obj_set params "input_type"
            (JStr (if isQuery then "search_query" else "search_document"))
  else if is_case source "ollama" then
    let params := obj_set params "apiUrl"
      (endpoint settings (obj_get (server_urls host) (textgen_types_OLLAMA host))) in
    obj_set params "keep" (JBool (truthy (obj_get settings "ollama_keep")))
  else if is_case source "llamacpp" then
    obj_set params "apiUrl"
      (endpoint settings (obj_get (server_urls host) (textgen_types_LLAMACPP host)))
  else if is_case source "vllm" then
    obj_set params "apiUrl"
      (endpoint settings (obj_get (server_urls host) (textgen_types_VLLM host)))
  else if is_case source "bananabread" then
    let params := obj_set params "apiUrl"
      (endpoint settings (JStr "http://localhost:8008")) in
    match assoc "bananabread_api_key" (secret_state host) with
    | Some (SecretList secrets) =>
        let activeSecret := js_or (find_active secrets) (first_secret secrets) in
        if truthy activeSecret
        then obj_set params "apiKey" (body_get activeSecret "value")
        else params
    | Some (SecretOther _) | None => params
    end
  else if is_case source "palm" then
    obj_set params "api" (JStr "makersuite")
  else if is_case source "vertexai" then
    let params := obj_set params "api" (JStr "vertexai") in
    let params := obj_set params "vertexai_auth_mode"
                          (obj_get (oai_settings host) "vertexai_auth_mode") in
    let params := obj_set params "vertexai_region"
                          (obj_get (oai_settings host) "vertexai_region") in
    obj_set params "vertexai_express_project_id"
            (obj_get (oai_settings host) "vertexai_express_project_id")
  else params.

(* ====================================================================== *)
(** ** Vector items *)
(* ====================================================================== *)

(** One chunk as the callers hand it to a backend: [text] is a string or
    missing, [vector] an array of numbers or missing, [metadata] an object
    or missing; the remaining fields are carried as they are. *)
Record VectorItem := mkItem {
  hash : Json;
  text : option string;
  index : Json;
  vector : option (list Q);
  metadata : option obj;
  importance : Json;
  keywords : Json;
  customWeights : Json;
  disabledKeywords : Json;
  chunkGroup : Json;
  conditions : Json;
  summary : Json;
  isSummaryChunk : Json;
  parentHash : Json
}.

Definition text_of (i : VectorItem) : Json :=
  match text i with Some s => JStr s | None => JUndefined end.

Definition vector_of (i : VectorItem) : Json :=
  match vector i with Some v => JArr (map JNum v) | None => JUndefined end.

Definition metadata_of (i : VectorItem) : Json :=
  match metadata i with Some m => JObj m | None => JUndefined end.

(** The property key a text converts to. *)
Definition text_key (i : VectorItem) : string :=
  match text i with Some s => s | None => "undefined" end.

(** [Object.fromEntries(items.map(i => [i.text, i.vector]))]. *)
Definition embeddings_of (items : list VectorItem) : obj :=
  obj_assign [] (map (fun i => (text_key i, vector_of i)) items).

Definition source_of (settings : obj) : Json :=
  js_or (obj_get settings "source") (JStr "transformers").

Definition vector_json (v : list Q) : Json := JArr (map JNum v).

Definition len {A} (l : list A) : Z := Z.of_nat (List.length l).

(** [v?.[idx]]. *)
Definition at_index (v : Json) (idx : nat) : Json :=
  match v with
  | JArr xs => nth idx xs JUndefined
  | JStr s => nth idx (chars s) JUndefined
  | JObj o => obj_get o (index_key idx)
  | _ => JUndefined
  end.

(** [v.map((m, idx) => f m idx)]. *)
Fixpoint mapiM {A B} (f : A -> nat -> Result B) (idx : nat) (xs : list A) : Result (list B) :=
  match xs with
  | [] => Ok []
  | x :: r =>
      match f x idx with
      | Thrown e => Thrown e
      | Ok y => match mapiM f (S idx) r with
                | Thrown e => Thrown e
                | Ok ys => Ok (y :: ys)
                end
      end
  end.

Definition js_mapi (v : Json) (f : Json -> nat -> Result Json) : Result Json :=
  match v with
  | JArr xs => match mapiM f 0 xs with
               | Ok ys => Ok (JArr ys)
               | Thrown e => Thrown e
               end
  | JUndefined | JNull => Thrown (TypeError "map")
  | _ => Thrown (TypeError "map is not a function")
  end.

Definition rbind {A B} (r : Result A) (f : A -> Result B) : Result B :=
  match r with Ok a => f a | Thrown e => Thrown e end.

Definition empty_result : Json :=
  JObj (obj_lit [("hashes", JArr []); ("metadata", JArr [])]).

(** The pair a multitenant adapter decodes from a collection id. *)
Record Tenant := mkTenant { type : string; sourceId : string }.

(** [filters: { type, sourceId }]. *)
Definition filters_of (t : Tenant) : Json :=
  JObj (obj_lit [("type", JStr (type t)); ("sourceId", JStr (sourceId t))]).

(* ====================================================================== *)
(** ** Hybrid adapter: [StandardBackend] *)
(* ====================================================================== *)

Module StandardBackend.

(** The instance: its only field is the capability flag. *)
Record Instance := mkInstance { pluginAvailable : bool }.

Definition constructor : Instance := mkInstance false.

(** [initialize]: returns the instance as the method leaves it. *)
Definition initialize (this : Instance) (settings : obj) : Async Instance :=
  try_catch
    (response <- fetch (mkRequest [Lit "/api/plugins/similharity/health"] "GET" false None) ;;
     let this := mkInstance (ok response) in
     if pluginAvailable this then
       fetch (mkRequest [Lit "/api/plugins/similharity/backend/init/vectra"]
                        "POST" true None) ;;;
       Return this
     else Return this)
    (fun e => Return (mkInstance false)).

Definition healthCheck : Async bool :=
  try_catch
    (response <- fetch (POST "/api/vector/list"
                          (obj_lit [("collectionId", JStr "__vecthare_health_check__");
                                    ("source", JStr "transformers")])) ;;
     Return ((status response =? 200)%Z || (status response =? 500)%Z))
    (fun error => Return false).

Section WithHost.
Variable host : Host.

Definition getSavedHashes (collectionId : string) (settings : obj) : Async (list Json) :=
  let providerParams := getProviderSpecificParams host settings false in
  let model := getModelFromSettings settings in
  response <- fetch (POST "/api/vector/list"
                       (obj_assign
                          (obj_lit [("collectionId", JStr collectionId);
                                    ("source", source_of settings);
                                    ("model", model)])
                          providerParams)) ;;
  if negb (ok response) then
    if (status response =? 500)%Z then Return []
    else Throw (Error [Lit "Failed to get saved hashes: "; Num (status response)])
  else
    data <- json response ;;
    Return (match data with JArr hashes => hashes | _ => [] end).

Definition insertVectorItems (collectionId : string) (items : list VectorItem)
           (settings : obj) : Async unit :=
  if (len items =? 0)%Z then Return tt
  else
    let providerParams := getProviderSpecificParams host settings false in
    let model := getModelFromSettings settings in
    (* [Math.max(...textLengths)]: one argument per item; the figures
       themselves are only logged *)
    if (max_arguments host <? len items)%Z then Throw RangeError
    else
    try_catch
      (response <- fetch (POST "/api/vector/insert"
          (obj_assign
             (obj_lit
                [("collectionId", JStr collectionId);
                 ("items", JArr (map (fun item =>
                     JObj (obj_lit [("hash", hash item);
                                    ("text", text_of item);
                                    ("index", js_coalesce (index item) (JInt 0))]))
                     items));
                 ("source", source_of settings);
                 ("model", model);
                 ("embeddings",
                  if truthy (match items with
                             | item0 :: _ => vector_of item0
                             | [] => JUndefined
                             end)
                  then JObj (embeddings_of items)
                  else JUndefined)])
             providerParams)) ;;
       if negb (ok response) then
         let errorBody := text_or_default response in
         Throw (Error [Lit "Failed to insert vectors: "; Num (status response);
                       Lit " - "; Val (JStr errorBody)])
       else Return tt)
      (fun error => Throw error).

Definition deleteVectorItems (collectionId : string) (hashes : list Json)
           (settings : obj) : Async unit :=
  response <- fetch (POST "/api/vector/delete"
                       (obj_lit [("collectionId", JStr collectionId);
                                 ("hashes", JArr hashes);
                                 ("source", source_of settings)])) ;;
  if negb (ok response)
  then Throw (Error [Lit "Failed to delete vectors: "; Num (status response)])
  else Return tt.

(** The request body of [queryCollection], before serialisation. *)
Definition queryCollection_body (collectionId searchText : string) (topK : nat)
           (settings : obj) (queryVector : option (list Q)) : obj :=
  let providerParams := getProviderSpecificParams host settings true in
  let model := getModelFromSettings settings in
  let requestBody :=
    obj_assign
      (obj_lit [("collectionId", JStr collectionId);
                ("searchText", JStr searchText);
                ("topK", JInt (Z.of_nat topK));
                ("threshold", js_or (obj_get settings "score_threshold") (JNum 0));
                ("source", source_of settings);
                ("model", model)])
      providerParams in
  match queryVector with
  | Some v => obj_set requestBody "embeddings" (JObj (obj_lit [(searchText, vector_json v)]))
  | None => requestBody
  end.

(** The normalisation of the native answer [{hashes, metadata}]. *)
Definition normalize (data : Json) : Result Json :=
  rbind (prop data "hashes") (fun hashes =>
  rbind (prop data "metadata") (fun metadata =>
  rbind (js_mapi (js_or metadata (JArr []))
           (fun m idx =>
              rbind (prop m "text") (fun m_text =>
              rbind (prop m "score") (fun m_score =>
              Ok (JObj (obj_assign
                          (obj_lit [("hash", at_index hashes idx);
                                    ("text", m_text);
                                    ("score", js_or m_score (JInt 0))])
                          (own_props m)))))))
    (fun entries =>
  Ok (JObj (obj_lit [("hashes", js_or hashes (JArr []));
                     ("metadata", entries)]))))).

Definition queryCollection (collectionId searchText : string) (topK : nat)
           (settings : obj) (queryVector : option (list Q)) : Async Json :=
  let requestBody := queryCollection_body collectionId searchText topK settings queryVector in
  response <- fetch (POST "/api/vector/query" requestBody) ;;
  if negb (ok response)
  then Throw (Error [Lit "Failed to query collection: "; Num (status response)])
  else
    data <- json response ;;
    lift (normalize data).

(** The request body of [queryMultipleCollections], before serialisation. *)
Definition queryMultipleCollections_body (collectionIds : list string) (searchText : string)
           (topK : nat) (threshold : Q) (settings : obj)
           (queryVector : option (list Q)) : obj :=
  let providerParams := getProviderSpecificParams host settings true in
  let model := getModelFromSettings settings in
  let requestBody :=
    obj_assign
      (obj_lit [("collectionIds", JArr (map JStr collectionIds));
                ("searchText", JStr searchText);
                ("topK", JInt (Z.of_nat topK));
                ("threshold", JNum threshold);
                ("source", source_of settings);
                ("model", model)])
      providerParams in
  match queryVector with
  | Some v => obj_set requestBody "embeddings"
                      (JObj (obj_lit [(searchText, vector_json v)]))
  | None => requestBody
  end.

Definition queryMultipleCollections (collectionIds : list string) (searchText : string)
           (topK : nat) (threshold : Q) (settings : obj)
           (queryVector : option (list Q)) : Async Json :=
  let requestBody :=
    queryMultipleCollections_body collectionIds searchText topK threshold settings
                                  queryVector in
  response <- fetch (POST "/api/vector/query-multi" requestBody) ;;
  if negb (ok response) then
    results <- for_of collectionIds ([] : obj) (fun results collectionId =>
      try_catch
        (r <- queryCollection collectionId searchText topK settings queryVector ;;
         Return (assign results collectionId r))
        (fun e => Return (assign results collectionId empty_result))) ;;
    Return (JObj results)
  else json response.

Definition purgeVectorIndex (collectionId : string) (settings : obj) : Async unit :=
  response <- fetch (POST "/api/vector/purge"
                       (obj_lit [("collectionId", JStr collectionId)])) ;;
  if negb (ok response)
  then Throw (Error [Lit "Failed to purge collection: "; Num (status response)])
  else Return tt.

Definition purgeFileVectorIndex (collectionId : string) (settings : obj) : Async unit :=
  purgeVectorIndex collectionId settings.

Definition purgeAllVectorIndexes (settings : obj) : Async unit :=
  response <- fetch (mkRequest [Lit "/api/vector/purge-all"] "POST" true None) ;;
  if negb (ok response)
  then Throw (Error [Lit "Failed to purge all: "; Num (status response)])
  else Return tt.

(** *** Extended operations *)

Definition wrap_hash (hash : Json) : Json :=
  JObj (obj_lit [("hash", hash); ("text", JStr ""); ("metadata", JObj [])]).

Definition listChunks (this : Instance) (collectionId : string) (settings options : obj)
  : Async Json :=
  early <- (if pluginAvailable this then
              try_catch
                (response <- fetch (POST "/api/plugins/similharity/chunks/list"
                    (obj_lit [("backend", JStr "vectra");
                              ("collectionId", JStr collectionId);
                              ("source", source_of settings);
                              ("model", getModelFromSettings settings);
                              ("offset", js_or (obj_get options "offset") (JInt 0));
                              ("limit", js_or (obj_get options "limit") (JInt 100));
                              ("includeVectors",
                               js_or (obj_get options "includeVectors") (JBool false))])) ;;
                 if ok response then (d <- json response ;; Return (Some d))
                 else Return None)
                (fun e => Return None)
            else Return None) ;;
  match early with
  | Some d => Return d
  | None =>
      hashes <- getSavedHashes collectionId settings ;;
      Return (JObj (obj_lit [("items", JArr (map wrap_hash hashes));
                             ("total", JInt (len hashes))]))
  end.

(** The query of the chunk URL, before [new URLSearchParams]. *)
Definition chunk_query (backend : string) (collectionId : Json) (settings : obj) : obj :=
  obj_lit [("backend", JStr backend);
           ("collectionId", collectionId);
           ("source", source_of settings);
           ("model", getModelFromSettings settings)].

Definition chunk_url (encoded query : Part) : Template :=
  [Lit "/api/plugins/similharity/chunks/"; encoded; Lit "?"; query].

Definition getChunk (this : Instance) (collectionId : string) (hash : Json)
           (settings : obj) : Async Json :=
  if negb (pluginAvailable this) then Return JNull
  else
    early <- try_catch
               (encoded <- lift (encodeURIComponent hash) ;;
                query <- lift (URLSearchParams
                                 (chunk_query "vectra" (JStr collectionId) settings)) ;;
                response <- fetch (GET (chunk_url encoded query)) ;;
                if ok response then
                  data <- json response ;;
                  chunk <- lift (prop data "chunk") ;;
                  Return (Some chunk)
                else Return None)
               (fun e => Return None) ;;
    match early with
    | Some chunk => Return chunk
    | None => Return JNull
    end.

Definition updateChunkText (this : Instance) (collectionId : string) (hash : Json)
           (newText : string) (settings : obj) : Async Json :=
  if negb (pluginAvailable this) then
    Throw (Error [Lit "Chunk text editing requires the Similharity plugin"])
  else
    encoded <- lift (encodeURIComponent hash) ;;
    response <- fetch (PATCH [Lit "/api/plugins/similharity/chunks/"; encoded; Lit "/text"]
                         (obj_lit [("backend", JStr "vectra");
                                   ("collectionId", JStr collectionId);
                                   ("text", JStr newText);
                                   ("source", source_of settings);
                                   ("model", getModelFromSettings settings)])) ;;
    if negb (ok response)
    then Throw (Error [Lit "Failed to update chunk text: "; Val (JStr (statusText response))])
    else json response.

Definition updateChunkMetadata (this : Instance) (collectionId : string) (hash : Json)
           (metadata : Json) (settings : obj) : Async Json :=
  if negb (pluginAvailable this) then
    Throw (Error [Lit "Chunk metadata editing requires the Similharity plugin"])
  else
    encoded <- lift (encodeURIComponent hash) ;;
    response <- fetch (PATCH [Lit "/api/plugins/similharity/chunks/"; encoded;
                              Lit "/metadata"]
                         (obj_lit [("backend", JStr "vectra");
                                   ("collectionId", JStr collectionId);
                                   ("metadata", metadata);
                                   ("source", source_of settings);
                                   ("model", getModelFromSettings settings)])) ;;
    if negb (ok response)
    then Throw (Error [Lit "Failed to update chunk metadata: ";
                       Val (JStr (statusText response))])
    else json response.

Definition getStats (this : Instance) (collectionId : string) (settings : obj) : Async Json :=
  early <- (if pluginAvailable this then
              try_catch
                (response <- fetch (POST "/api/plugins/similharity/chunks/stats"
                    (obj_lit [("backend", JStr "vectra");
                              ("collectionId", JStr collectionId);
                              ("source", source_of settings);
                              ("model", getModelFromSettings settings)])) ;;
                 if ok response then
                   data <- json response ;;
                   stats <- lift (prop data "stats") ;;
                   Return (Some stats)
                 else Return None)
                (fun e => Return None)
            else Return None) ;;
  match early with
  | Some stats => Return stats
  | None =>
      hashes <- getSavedHashes collectionId settings ;;
      Return (JObj (obj_lit [("count", JInt (len hashes)); ("source", JStr "native")]))
  end.

Definition discoverCollections (this : Instance) (settings : obj) : Async Json :=
  early <- (if pluginAvailable this then
              try_catch
                (response <- fetch (GET [Lit "/api/plugins/similharity/collections"]) ;;
                 if ok response then
                   data <- json response ;;
                   collections <- lift (prop data "collections") ;;
                   found <- lift (js_map (js_or collections (JArr [])) (fun c =>
                     rbind (prop c "id") (fun c_id =>
                     rbind (prop c "source") (fun c_source =>
                     rbind (prop c "chunkCount") (fun c_chunkCount =>
                     rbind (prop c "backend") (fun c_backend =>
                     Ok (JObj (obj_lit [("id", c_id);
                                        ("source", c_source);
                                        ("chunkCount", js_or c_chunkCount (JInt 0));
                                        ("backend", js_or c_backend (JStr "vectra"))])))))))) ;;
                   Return (Some found)
                 else Return None)
                (fun e => Return None)
            else Return None) ;;
  match early with
  | Some found => Return found
  | None => Return JNull
  end.

End WithHost.

End StandardBackend.

(* ====================================================================== *)
(** ** Single-tenant plugin adapter: [LanceDBBackend] *)
(* ====================================================================== *)

Module LanceDBBackend.

Definition BACKEND_TYPE : string := "lancedb".

Definition healthCheck : Async bool :=
  try_catch
    (response <- fetch (GET [Lit "/api/plugins/similharity/backend/health/lancedb"]) ;;
     if negb (ok response) then Return false
     else
       data <- json response ;;
       healthy <- lift (prop data "healthy") ;;
       Return (match healthy with JBool true => true | _ => false end))
    (fun error => Return false).

(** [{hashes: rs.map(r => r.hash), metadata: rs.map(r => ({...}))}]. *)
Definition format_results (resultArray : Json) : Result Json :=
  rbind (js_map resultArray (fun r => prop r "hash")) (fun hashes =>
  rbind (js_map resultArray (fun r =>
           rbind (prop r "hash") (fun r_hash =>
           rbind (prop r "text") (fun r_text =>
           rbind (prop r "score") (fun r_score =>
           rbind (prop r "metadata") (fun r_metadata =>
           Ok (JObj (obj_assign
                       (obj_lit [("hash", r_hash); ("text", r_text); ("score", r_score)])
                       (own_props r_metadata))))))))) (fun metadata =>
  Ok (JObj (obj_lit [("hashes", hashes); ("metadata", metadata)])))).

Section WithHost.
Variable host : Host.

Definition insertVectorItems (collectionId : string) (items : list VectorItem)
           (settings : obj) : Async unit :=
  if (len items =? 0)%Z then Return tt
  else
    let providerParams := getProviderSpecificParams host settings false in
    response <- fetch (POST "/api/plugins/similharity/chunks/insert"
        (obj_assign
           (obj_lit
              [("backend", JStr BACKEND_TYPE);
               ("collectionId", JStr collectionId);
               ("items", JArr (map (fun item =>
                   JObj (obj_lit [("hash", hash item);
                                  ("text", text_of item);
                                  ("index", index item);
                                  ("vector", vector_of item);
                                  ("metadata", js_or (metadata_of item) (JObj []))]))
                   items));
               ("source", source_of settings);
               ("model", getModelFromSettings settings)])
           providerParams)) ;;
    if negb (ok response) then
      let errorBody := text_or_default response in
      Throw (Error [Lit "[LanceDB] Failed to insert "; Num (len items);
                    Lit " vectors into "; Val (JStr collectionId); Lit ": ";
                    Num (status response); Lit " "; Val (JStr (statusText response));
                    Lit " - "; Val (JStr errorBody)])
    else Return tt.

Definition queryCollection_body (collectionId searchText : string) (topK : nat)
           (settings : obj) : obj :=
  let providerParams := getProviderSpecificParams host settings true in
  obj_assign
    (obj_lit [("backend", JStr BACKEND_TYPE);
              ("collectionId", JStr collectionId);
              ("searchText", JStr searchText);
              ("topK", JInt (Z.of_nat topK));
              ("threshold", JNum 0);
              ("source", source_of settings);
              ("model", getModelFromSettings settings)])
    providerParams.

Definition queryCollection (collectionId searchText : string) (topK : nat)
           (settings : obj) : Async Json :=
  response <- fetch (POST "/api/plugins/similharity/chunks/query"
                       (queryCollection_body collectionId searchText topK settings)) ;;
  if negb (ok response) then
    let errorBody := text_or_default response in
    Throw (Error [Lit "[LanceDB] Failed to query collection "; Val (JStr collectionId);
                  Lit ": "; Num (status response); Lit " ";
                  Val (JStr (statusText response)); Lit " - "; Val (JStr errorBody)])
  else
    data <- json response ;;
    results <- lift (prop data "results") ;;
    lift (format_results results).

(** The request of one turn of the loop of [queryMultipleCollections]. *)
Definition query_one_request (searchText : string) (topK : nat) (threshold : Q)
           (settings : obj) (providerParams : obj) (collectionId : string) : Request :=
  POST "/api/plugins/similharity/chunks/query"
    (obj_assign
       (obj_lit [("backend", JStr BACKEND_TYPE);
                 ("collectionId", JStr collectionId);
                 ("searchText", JStr searchText);
                 ("topK", JInt (Z.of_nat topK));
                 ("threshold", JNum threshold);
                 ("source", source_of settings);
                 ("model", getModelFromSettings settings)])
       providerParams).

(** One turn of the loop of [queryMultipleCollections]. *)
Definition query_one (searchText : string) (topK : nat) (threshold : Q) (settings : obj)
           (providerParams : obj) (results : obj) (collectionId : string) : Async obj :=
  try_catch
    (response <- fetch (query_one_request searchText topK threshold settings providerParams
                                          collectionId) ;;
     if ok response then
       data <- json response ;;
       data_results <- lift (prop data "results") ;;
       data_chunks <- lift (prop data "chunks") ;;
       let resultArray := js_or (js_or data_results data_chunks) (JArr []) in
       formatted <- lift (format_results resultArray) ;;
       Return (assign results collectionId formatted)
     else Return (assign results collectionId empty_result))
    (fun error => Return (assign results collectionId empty_result)).

Definition queryMultipleCollections (collectionIds : list string) (searchText : string)
           (topK : nat) (threshold : Q) (settings : obj) : Async Json :=
  let results : obj := [] in
  let providerParams := getProviderSpecificParams host settings true in
  results <- for_of collectionIds results
               (query_one searchText topK threshold settings providerParams) ;;
  Return (JObj results).

(** *** The remaining operations *)

(** [VECTOR_LIST_LIMIT] is exported by [core/constants.js], which is not
    among the sources: it is a parameter of the methods that use it. *)
Variable VECTOR_LIST_LIMIT : Z.

Definition initialize (settings : obj) : Async unit :=
  response <- fetch (mkRequest [Lit "/api/plugins/similharity/backend/init/lancedb"]
                               "POST" true None) ;;
  if negb (ok response) then
    let errorBody := text_or_default response in
    Throw (Error [Lit "Failed to initialize LanceDB: "; Num (status response); Lit " ";
                  Val (JStr (statusText response)); Lit " - "; Val (JStr errorBody)])
  else Return tt.

(** [data.items ? data.items.map(item => item.hash) : []]. *)
Definition item_hashes (data : Json) : Result (list Json) :=
  rbind (prop data "items") (fun items =>
  if truthy items then
    match items with
    | JArr xs => mapM (fun item => prop item "hash") xs
    | _ => Thrown (TypeError "map is not a function")
    end
  else Ok []).

Definition getSavedHashes (collectionId : string) (settings : obj) : Async (list Json) :=
  response <- fetch (POST "/api/plugins/similharity/chunks/list"
                       (obj_lit [("backend", JStr BACKEND_TYPE);
                                 ("collectionId", JStr collectionId);
                                 ("source", source_of settings);
                                 ("model", getModelFromSettings settings);
                                 ("limit", JInt VECTOR_LIST_LIMIT)])) ;;
  if negb (ok response) then
    let errorBody := text_or_default response in
    Throw (Error [Lit "[LanceDB] Failed to get saved hashes for "; Val (JStr collectionId);
                  Lit ": "; Num (status response); Lit " ";
                  Val (JStr (statusText response)); Lit " - "; Val (JStr errorBody)])
  else
    data <- json response ;;
    lift (item_hashes data).

Definition deleteVectorItems (collectionId : string) (hashes : list Json) (settings : obj)
  : Async unit :=
  response <- fetch (POST "/api/plugins/similharity/chunks/delete"
                       (obj_lit [("backend", JStr BACKEND_TYPE);
                                 ("collectionId", JStr collectionId);
                                 ("hashes", JArr hashes);
                                 ("source", source_of settings);
                                 ("model", getModelFromSettings settings)])) ;;
  if negb (ok response) then
    let errorBody := text_or_default response in
    Throw (Error [Lit "[LanceDB] Failed to delete vectors from "; Val (JStr collectionId);
                  Lit ": "; Num (status response); Lit " ";
                  Val (JStr (statusText response)); Lit " - "; Val (JStr errorBody)])
  else Return tt.

(** [purgeVectorIndex]; [purgeAllVectorIndexes] calls it with whatever the
    plugin lists as a collection's id, so the id is any value here. *)
Definition purgeVectorIndex (collectionId : Json) (settings : obj) : Async unit :=
  response <- fetch (POST "/api/plugins/similharity/chunks/purge"
                       (obj_lit [("backend", JStr BACKEND_TYPE);
                                 ("collectionId", collectionId);
                                 ("source", source_of settings);
                                 ("model", getModelFromSettings settings)])) ;;
  if negb (ok response) then
    let errorBody := text_or_default response in
    (* the message converts [collectionId] to a string *)
    if unprintable collectionId then Throw (TypeError "toString")
    else
    Throw (Error [Lit "[LanceDB] Failed to purge collection "; Val collectionId;
                  Lit ": "; Num (status response); Lit " ";
                  Val (JStr (statusText response)); Lit " - "; Val (JStr errorBody)])
  else Return tt.

Definition purgeFileVectorIndex (collectionId : Json) (settings : obj) : Async unit :=
  purgeVectorIndex collectionId settings.

(** The values a [for ... of] visits: the elements of an array, the
    characters of a string; the other values are not iterable. *)
Definition iterate (v : Json) : Result (list Json) :=
  match v with
  | JArr xs => Ok xs
  | JStr s => Ok (chars s)
  | _ => Thrown (TypeError "is not iterable")
  end.

(** One turn of the loop of [purgeAllVectorIndexes]. *)
Definition purge_one (settings : obj) (collection : Json) : Async unit :=
  try_catch
    (id <- lift (prop collection "id") ;;
     source <- lift (prop collection "source") ;;
     purgeVectorIndex id (obj_set (obj_assign [] settings) "source" source))
    (fun e => Return tt).

Definition purgeAllVectorIndexes (settings : obj) : Async unit :=
  response <- fetch (GET [Lit "/api/plugins/similharity/collections"]) ;;
  if negb (ok response) then
    let errorBody := text_or_default response in
    Throw (Error [Lit "[LanceDB] Failed to get collections: "; Num (status response);
                  Lit " "; Val (JStr (statusText response)); Lit " - ";
                  Val (JStr errorBody)])
  else
    data <- json response ;;
    listed <- lift (prop data "collections") ;;
    collections <- lift (iterate (js_or listed (JArr []))) ;;
    for_of collections tt (fun _ collection => purge_one settings collection).

(** The query of the chunk URL, before [new URLSearchParams]. *)
Definition chunk_query (collectionId : Json) (settings : obj) : obj :=
  obj_lit [("backend", JStr BACKEND_TYPE);
           ("collectionId", collectionId);
           ("source", source_of settings);
           ("model", getModelFromSettings settings)].

Definition chunk_url (encoded query : Part) : Template :=
  [Lit "/api/plugins/similharity/chunks/"; encoded; Lit "?"; query].

Definition getChunk (collectionId : string) (hash : Json) (settings : obj) : Async Json :=
  encoded <- lift (encodeURIComponent hash) ;;
  query <- lift (URLSearchParams (chunk_query (JStr collectionId) settings)) ;;
  response <- fetch (GET (chunk_url encoded query)) ;;
  if negb (ok response) then
    if (status response =? 404)%Z then Return JNull
    else
      let errorBody := text_or_default response in
      Throw (Error [Lit "[LanceDB] Failed to get chunk "; Val hash; Lit " from ";
                    Val (JStr collectionId); Lit ": "; Num (status response); Lit " ";
                    Val (JStr (statusText response)); Lit " - "; Val (JStr errorBody)])
  else
    data <- json response ;;
    lift (prop data "chunk").

Definition listChunks (collectionId : string) (settings options : obj) : Async Json :=
  response <- fetch (POST "/api/plugins/similharity/chunks/list"
                       (obj_lit [("backend", JStr BACKEND_TYPE);
                                 ("collectionId", JStr collectionId);
                                 ("source", source_of settings);
                                 ("model", getModelFromSettings settings);
                                 ("offset", js_or (obj_get options "offset") (JInt 0));
                                 ("limit", js_or (obj_get options "limit") (JInt 100));
                                 ("includeVectors",
                                  js_or (obj_get options "includeVectors") (JBool false))])) ;;
  if negb (ok response) then
    let errorBody := text_or_default response in
    Throw (Error [Lit "[LanceDB] Failed to list chunks in "; Val (JStr collectionId);
                  Lit ": "; Num (status response); Lit " ";
                  Val (JStr (statusText response)); Lit " - "; Val (JStr errorBody)])
  else json response.

Definition updateChunkText (collectionId : string) (hash : Json) (newText : string)
           (settings : obj) : Async Json :=
  encoded <- lift (encodeURIComponent hash) ;;
  response <- fetch (PATCH [Lit "/api/plugins/similharity/chunks/"; encoded; Lit "/text"]
                       (obj_lit [("backend", JStr BACKEND_TYPE);
                                 ("collectionId", JStr collectionId);
                                 ("text", JStr newText);
                                 ("source", source_of settings);
                                 ("model", getModelFromSettings settings)])) ;;
  if negb (ok response) then
    let errorBody := text_or_default response in
    Throw (Error [Lit "[LanceDB] Failed to update chunk text in "; Val (JStr collectionId);
                  Lit ": "; Num (status response); Lit " ";
                  Val (JStr (statusText response)); Lit " - "; Val (JStr errorBody)])
  else json response.

Definition updateChunkMetadata (collectionId : string) (hash : Json) (metadata : Json)
           (settings : obj) : Async Json :=
  encoded <- lift (encodeURIComponent hash) ;;
  response <- fetch (PATCH [Lit "/api/plugins/similharity/chunks/"; encoded;
                            Lit "/metadata"]
                       (obj_lit [("backend", JStr BACKEND_TYPE);
                                 ("collectionId", JStr collectionId);
                                 ("metadata", metadata);
                                 ("source", source_of settings);
                                 ("model", getModelFromSettings settings)])) ;;
  if negb (ok response) then
    let errorBody := text_or_default response in
    Throw (Error [Lit "[LanceDB] Failed to update chunk metadata in ";
                  Val (JStr collectionId);
                  Lit ": "; Num (status response); Lit " ";
                  Val (JStr (statusText response)); Lit " - "; Val (JStr errorBody)])
  else json response.

Definition getStats (collectionId : string) (settings : obj) : Async Json :=
  response <- fetch (POST "/api/plugins/similharity/chunks/stats"
                       (obj_lit [("backend", JStr BACKEND_TYPE);
                                 ("collectionId", JStr collectionId);
                                 ("source", source_of settings);
                                 ("model", getModelFromSettings settings)])) ;;
  if negb (ok response) then
    let errorBody := text_or_default response in
    Throw (Error [Lit "[LanceDB] Failed to get stats for "; Val (JStr collectionId);
                  Lit ": "; Num (status response); Lit " ";
                  Val (JStr (statusText response)); Lit " - "; Val (JStr errorBody)])
  else
    data <- json response ;;
    lift (prop data "stats").


End WithHost.

End LanceDBBackend.

(* ====================================================================== *)
(** ** Multitenant plugin adapter: [QdrantBackend] *)
(* ====================================================================== *)

Module QdrantBackend.

Definition BACKEND_TYPE : string := "qdrant".

Definition healthCheck : Async bool :=
  try_catch
    (response <- fetch (GET [Lit "/api/plugins/similharity/backend/health/qdrant"]) ;;
     if negb (ok response) then Return false
     else
       data <- json response ;;
       healthy <- lift (prop data "healthy") ;;
       Return (match healthy with JBool true => true | _ => false end))
    (fun error => Return false).

(** [_parseCollectionId]. *)
Definition _parseCollectionId (collectionId : Json) : Tenant :=
  if negb (truthy collectionId) || negb (is_string collectionId) then
    mkTenant "unknown" "unknown"
  else
    match collectionId with
    | JStr id =>
        let parts := split ":" id in
        if (3 <=? List.length parts)%nat && String.eqb (nth 0 parts "") "vh" then
          mkTenant (nth 1 parts "") (join ":" (slice 2 parts))
        else
          let legacyParts := split "_" id in
          if (3 <=? List.length legacyParts)%nat
             && String.eqb (nth 0 legacyParts "") "vecthare" then
            mkTenant (nth 1 legacyParts "") (join "_" (slice 2 legacyParts))
          else
            mkTenant "chat" id
    | _ => mkTenant "unknown" "unknown"
    end.

(** [{hashes: rs.map(r => r.hash), metadata: rs.map(r => ({...}))}]. *)
Definition format_results (resultArray : Json) : Result Json :=
  rbind (js_map resultArray (fun r => prop r "hash")) (fun hashes =>
  rbind (js_map resultArray (fun r =>
           rbind (prop r "hash") (fun r_hash =>
           rbind (prop r "text") (fun r_text =>
           rbind (prop r "score") (fun r_score =>
           rbind (prop r "metadata") (fun r_metadata =>
           Ok (JObj (obj_assign
                       (obj_lit [("hash", r_hash); ("text", r_text); ("score", r_score)])
                       (own_props r_metadata))))))))) (fun metadata =>
  Ok (JObj (obj_lit [("hashes", hashes); ("metadata", metadata)])))).

(** The payload metadata of one inserted item. *)
Definition item_metadata (item : VectorItem) : obj :=
  obj_assign (obj_assign [] (own_props (metadata_of item)))
    [("importance", importance item);
     ("keywords", keywords item);
     ("customWeights", customWeights item);
     ("disabledKeywords", disabledKeywords item);
     ("chunkGroup", chunkGroup item);
     ("conditions", conditions item);
     ("summary", summary item);
     ("isSummaryChunk", isSummaryChunk item);
     ("parentHash", parentHash item)].

Definition tenant_context (collectionId : string) (t : Tenant) : Template :=
  [Val (JStr collectionId); Lit " (type: "; Val (JStr (type t));
   Lit ", sourceId: "; Val (JStr (sourceId t)); Lit "): "].

Definition failure (r : Response) : Template :=
  [Num (status r); Lit " "; Val (JStr (statusText r)); Lit " - ";
   Val (JStr (text_or_default r))].

Section WithHost.
Variable host : Host.

Definition insertVectorItems (collectionId : string) (items : list VectorItem)
           (settings : obj) : Async unit :=
  if (len items =? 0)%Z then Return tt
  else
    let t := _parseCollectionId (JStr collectionId) in
    let providerParams := getProviderSpecificParams host settings false in
    response <- fetch (POST "/api/plugins/similharity/chunks/insert"
        (obj_assign
           (obj_lit
              [("backend", JStr BACKEND_TYPE);
               ("collectionId", JStr "vecthare_main");
               ("items", JArr (map (fun item =>
                   JObj (obj_lit [("hash", hash item);
                                  ("text", text_of item);
                                  ("index", index item);
                                  ("vector", vector_of item);
                                  ("metadata", JObj (item_metadata item))]))
                   items));
               ("source", source_of settings);
               ("model", getModelFromSettings settings);
               ("filters", filters_of t)])
           providerParams)) ;;
    if negb (ok response) then
      Throw (Error ([Lit "[Qdrant] Failed to insert "; Num (len items);
                     Lit " vectors into "] ++ tenant_context collectionId t
                    ++ failure response))
    else Return tt.

Definition queryCollection_body (collectionId searchText : string) (topK : nat)
           (settings : obj) : obj :=
  let t := _parseCollectionId (JStr collectionId) in
  let providerParams := getProviderSpecificParams host settings true in
  obj_assign
    (obj_lit [("backend", JStr BACKEND_TYPE);
              ("collectionId", JStr "vecthare_main");
              ("searchText", JStr searchText);
              ("topK", JInt (Z.of_nat topK));
              ("threshold", JNum 0);
              ("source", source_of settings);
              ("model", getModelFromSettings settings);
              ("filters", filters_of t)])
    providerParams.

Definition queryCollection (collectionId searchText : string) (topK : nat)
           (settings : obj) : Async Json :=
  let t := _parseCollectionId (JStr collectionId) in
  response <- fetch (POST "/api/plugins/similharity/chunks/query"
                       (queryCollection_body collectionId searchText topK settings)) ;;
  if negb (ok response) then
    Throw (Error ([Lit "[Qdrant] Failed to query collection "]
                  ++ tenant_context collectionId t ++ failure response))
  else
    data <- json response ;;
    results <- lift (prop data "results") ;;
    lift (format_results results).

(** The request of one turn of the loop of [queryMultipleCollections]. *)
Definition query_one_request (searchText : string) (topK : nat) (threshold : Q)
           (settings : obj) (providerParams : obj) (collectionId : string) : Request :=
  let t := _parseCollectionId (JStr collectionId) in
  POST "/api/plugins/similharity/chunks/query"
    (obj_assign
       (obj_lit [("backend", JStr BACKEND_TYPE);
                 ("collectionId", JStr "vecthare_main");
                 ("searchText", JStr searchText);
                 ("topK", JInt (Z.of_nat topK));
                 ("threshold", JNum threshold);
                 ("source", source_of settings);
                 ("model", getModelFromSettings settings);
                 ("filters", filters_of t)])
       providerParams).

(** One turn of the loop of [queryMultipleCollections]. *)
Definition query_one (searchText : string) (topK : nat) (threshold : Q) (settings : obj)
           (providerParams : obj) (results : obj) (collectionId : string) : Async obj :=
  try_catch
    (response <- fetch (query_one_request searchText topK threshold settings providerParams
                                          collectionId) ;;
     if ok response then
       data <- json response ;;
       data_results <- lift (prop data "results") ;;
       data_chunks <- lift (prop data "chunks") ;;
       let resultArray := js_or (js_or data_results data_chunks) (JArr []) in
       formatted <- lift (format_results resultArray) ;;
       Return (assign results collectionId formatted)
     else Return (assign results collectionId empty_result))
    (fun error => Return (assign results collectionId empty_result)).

Definition queryMultipleCollections (collectionIds : list string) (searchText : string)
           (topK : nat) (threshold : Q) (settings : obj) : Async Json :=
  let results : obj := [] in
  let providerParams := getProviderSpecificParams host settings true in
  results <- for_of collectionIds results
               (query_one searchText topK threshold settings providerParams) ;;
  Return (JObj results).

Definition purgeVectorIndex (collectionId : string) (settings : obj) : Async unit :=
  let t := _parseCollectionId (JStr collectionId) in
  response <- fetch (POST "/api/plugins/similharity/chunks/purge"
                       (obj_lit [("backend", JStr BACKEND_TYPE);
                                 ("collectionId", JStr "vecthare_main");
                                 ("source", source_of settings);
                                 ("model", getModelFromSettings settings);
                                 ("filters", filters_of t)])) ;;
  if negb (ok response) then
    Throw (Error ([Lit "[Qdrant] Failed to purge collection "]
                  ++ tenant_context collectionId t ++ failure response))
  else Return tt.

Definition purgeFileVectorIndex (collectionId : string) (settings : obj) : Async unit :=
  purgeVectorIndex collectionId settings.

Definition purgeAllVectorIndexes (settings : obj) : Async unit :=
  response <- fetch (POST "/api/plugins/similharity/chunks/purge"
                       (obj_lit [("backend", JStr BACKEND_TYPE);
                                 ("collectionId", JStr "vecthare_main");
                                 ("source", source_of settings);
                                 ("model", getModelFromSettings settings)])) ;;
  if negb (ok response) then
    Throw (Error ([Lit "[Qdrant] Failed to purge all collections: "]
                  ++ failure response))
  else Return tt.

(** *** The remaining operations *)

(** [VECTOR_LIST_LIMIT] is exported by [core/constants.js], which is not
    among the sources: it is a parameter of the methods that use it. *)
Variable VECTOR_LIST_LIMIT : Z.

(** [data.items ? data.items.map(item => item.hash) : []]. *)
Definition item_hashes (data : Json) : Result (list Json) :=
  rbind (prop data "items") (fun items =>
  if truthy items then
    match items with
    | JArr xs => mapM (fun item => prop item "hash") xs
    | _ => Thrown (TypeError "map is not a function")
    end
  else Ok []).

Definition getSavedHashes (collectionId : string) (settings : obj) : Async (list Json) :=
  let t := _parseCollectionId (JStr collectionId) in
  response <- fetch (POST "/api/plugins/similharity/chunks/list"
                       (obj_lit [("backend", JStr BACKEND_TYPE);
                                 ("collectionId", JStr "vecthare_main");
                                 ("source", source_of settings);
                                 ("model", getModelFromSettings settings);
                                 ("limit", JInt VECTOR_LIST_LIMIT);
                                 ("filters", filters_of t)])) ;;
  if negb (ok response) then
    Throw (Error ([Lit "[Qdrant] Failed to get saved hashes for "]
                  ++ tenant_context collectionId t ++ failure response))
  else
    data <- json response ;;
    lift (item_hashes data).

Definition deleteVectorItems (collectionId : string) (hashes : list Json) (settings : obj)
  : Async unit :=
  let t := _parseCollectionId (JStr collectionId) in
  response <- fetch (POST "/api/plugins/similharity/chunks/delete"
                       (obj_lit [("backend", JStr BACKEND_TYPE);
                                 ("collectionId", JStr "vecthare_main");
                                 ("hashes", JArr hashes);
                                 ("source", source_of settings);
                                 ("model", getModelFromSettings settings);
                                 ("filters", filters_of t)])) ;;
  if negb (ok response) then
    Throw (Error ([Lit "[Qdrant] Failed to delete vectors from "]
                  ++ tenant_context collectionId t ++ failure response))
  else Return tt.

(** The query of the chunk URL, before [new URLSearchParams]. *)
Definition chunk_query (settings : obj) : obj :=
  obj_lit [("backend", JStr BACKEND_TYPE);
           ("collectionId", JStr "vecthare_main");
           ("source", source_of settings);
           ("model", getModelFromSettings settings)].

Definition chunk_url (encoded query : Part) : Template :=
  [Lit "/api/plugins/similharity/chunks/"; encoded; Lit "?"; query].

Definition getChunk (collectionId : string) (hash : Json) (settings : obj) : Async Json :=
  let t := _parseCollectionId (JStr collectionId) in
  encoded <- lift (encodeURIComponent hash) ;;
  query <- lift (URLSearchParams (chunk_query settings)) ;;
  response <- fetch (GET (chunk_url encoded query)) ;;
  if negb (ok response) then
    if (status response =? 404)%Z then Return JNull
    else
      Throw (Error ([Lit "[Qdrant] Failed to get chunk "; Val hash; Lit " from ";
                     Val (JStr collectionId); Lit ": "] ++ failure response))
  else
    data <- json response ;;
    lift (prop data "chunk").

Definition listChunks (collectionId : string) (settings options : obj) : Async Json :=
  let t := _parseCollectionId (JStr collectionId) in
  response <- fetch (POST "/api/plugins/similharity/chunks/list"
                       (obj_lit [("backend", JStr BACKEND_TYPE);
                                 ("collectionId", JStr "vecthare_main");
                                 ("source", source_of settings);
                                 ("model", getModelFromSettings settings);
                                 ("offset", js_or (obj_get options "offset") (JInt 0));
                                 ("limit", js_or (obj_get options "limit") (JInt 100));
                                 ("includeVectors",
                                  js_or (obj_get options "includeVectors") (JBool false));
                                 ("filters", filters_of t)])) ;;
  if negb (ok response) then
    Throw (Error ([Lit "[Qdrant] Failed to list chunks in "]
                  ++ tenant_context collectionId t ++ failure response))
  else json response.

Definition updateChunkText (collectionId : string) (hash : Json) (newText : string)
           (settings : obj) : Async Json :=
  let t := _parseCollectionId (JStr collectionId) in
  encoded <- lift (encodeURIComponent hash) ;;
  response <- fetch (PATCH [Lit "/api/plugins/similharity/chunks/"; encoded; Lit "/text"]
                       (obj_lit [("backend", JStr BACKEND_TYPE);
                                 ("collectionId", JStr "vecthare_main");
                                 ("text", JStr newText);
                                 ("source", source_of settings);
                                 ("model", getModelFromSettings settings);
                                 ("filters", filters_of t)])) ;;
  if negb (ok response) then
    Throw (Error ([Lit "[Qdrant] Failed to update chunk text in "; Val (JStr collectionId);
                   Lit " (hash: "; Val hash; Lit "): "] ++ failure response))
  else json response.

Definition updateChunkMetadata (collectionId : string) (hash : Json) (metadata : Json)
           (settings : obj) : Async Json :=
  let t := _parseCollectionId (JStr collectionId) in
  encoded <- lift (encodeURIComponent hash) ;;
  response <- fetch (PATCH [Lit "/api/plugins/similharity/chunks/"; encoded;
                            Lit "/metadata"]
                       (obj_lit [("backend", JStr BACKEND_TYPE);
                                 ("collectionId", JStr "vecthare_main");
                                 ("metadata", metadata);
                                 ("source", source_of settings);
                                 ("model", getModelFromSettings settings);
                                 ("filters", filters_of t)])) ;;
  if negb (ok response) then
    Throw (Error ([Lit "[Qdrant] Failed to update chunk metadata in ";
                   Val (JStr collectionId); Lit " (hash: "; Val hash; Lit "): "]
                  ++ failure response))
  else json response.

Definition getStats (collectionId : string) (settings : obj) : Async Json :=
  let t := _parseCollectionId (JStr collectionId) in
  response <- fetch (POST "/api/plugins/similharity/chunks/stats"
                       (obj_lit [("backend", JStr BACKEND_TYPE);
                                 ("collectionId", JStr "vecthare_main");
                                 ("source", source_of settings);
                                 ("model", getModelFromSettings settings);
                                 ("filters", filters_of t)])) ;;
  if negb (ok response) then
    Throw (Error ([Lit "[Qdrant] Failed to get stats for "]
                  ++ tenant_context collectionId t ++ failure response))
  else
    data <- json response ;;
    lift (prop data "stats").

(** [initialize]: the connection settings with their defaults. *)
Definition initialize (settings : obj) : Async unit :=
  let config :=
    obj_lit [("host", js_or (obj_get settings "qdrant_host") (JStr "localhost"));
             ("port", js_or (obj_get settings "qdrant_port") (JInt 6333));
             ("url", js_or (obj_get settings "qdrant_url") JNull);
             ("apiKey", js_or (obj_get settings "qdrant_api_key") JNull)] in
  response <- fetch (POST "/api/plugins/similharity/backend/init/qdrant" config) ;;
  if negb (ok response) then
    Throw (Error ([Lit "[Qdrant] Failed to initialize Qdrant: "] ++ failure response))
  else Return tt.


End WithHost.

End QdrantBackend.

(* ====================================================================== *)
(** ** Multitenant plugin adapter: [MilvusBackend] *)
(* ====================================================================== *)

Module MilvusBackend.

Definition BACKEND_TYPE : string := "milvus".

Definition healthCheck : Async bool :=
  try_catch
    (response <- fetch (GET [Lit "/api/plugins/similharity/backend/health/milvus"]) ;;
     if negb (ok response) then Return false
     else
       data <- json response ;;
       healthy <- lift (prop data "healthy") ;;
       Return (match healthy with JBool true => true | _ => false end))
    (fun error => Return false).

(** [_parseCollectionId]. *)
Definition _parseCollectionId (collectionId : Json) : Tenant :=
  if negb (truthy collectionId) || negb (is_string collectionId) then
    mkTenant "unknown" "unknown"
  else
    match collectionId with
    | JStr id =>
        let parts := split ":" id in
        if (3 <=? List.length parts)%nat && String.eqb (nth 0 parts "") "vh" then
          mkTenant (nth 1 parts "") (join ":" (slice 2 parts))
        else
          let legacyParts := split "_" id in
          if (3 <=? List.length legacyParts)%nat
             && String.eqb (nth 0 legacyParts "") "vecthare" then
            mkTenant (nth 1 legacyParts "") (join "_" (slice 2 legacyParts))
          else
            mkTenant "chat" id
    | _ => mkTenant "unknown" "unknown"
    end.

(** [{hashes: rs.map(r => r.hash), metadata: rs.map(r => ({...}))}]. *)
Definition format_results (resultArray : Json) : Result Json :=
  rbind (js_map resultArray (fun r => prop r "hash")) (fun hashes =>
  rbind (js_map resultArray (fun r =>
           rbind (prop r "hash") (fun r_hash =>
           rbind (prop r "text") (fun r_text =>
           rbind (prop r "score") (fun r_score =>
           rbind (prop r "metadata") (fun r_metadata =>
           Ok (JObj (obj_assign
                       (obj_lit [("hash", r_hash); ("text", r_text); ("score", r_score)])
                       (own_props r_metadata))))))))) (fun metadata =>
  Ok (JObj (obj_lit [("hashes", hashes); ("metadata", metadata)])))).

(** The payload metadata of one inserted item. *)
Definition item_metadata (item : VectorItem) : obj :=
  obj_assign (obj_assign [] (own_props (metadata_of item)))
    [("importance", importance item);
     ("keywords", keywords item);
     ("customWeights", customWeights item);
     ("disabledKeywords", disabledKeywords item);
     ("chunkGroup", chunkGroup item);
     ("conditions", conditions item);
     ("summary", summary item);
     ("isSummaryChunk", isSummaryChunk item);
     ("parentHash", parentHash item)].

Definition tenant_context (collectionId : string) (t : Tenant) : Template :=
  [Val (JStr collectionId); Lit " (type: "; Val (JStr (type t));
   Lit ", sourceId: "; Val (JStr (sourceId t)); Lit "): "].

Definition failure (r : Response) : Template :=
  [Num (status r); Lit " "; Val (JStr (statusText r)); Lit " - ";
   Val (JStr (text_or_default r))].

Section WithHost.
Variable host : Host.

Definition insertVectorItems (collectionId : string) (items : list VectorItem)
           (settings : obj) : Async unit :=
  if (len items =? 0)%Z then Return tt
  else
    let t := _parseCollectionId (JStr collectionId) in
    let providerParams := getProviderSpecificParams host settings false in
    response <- fetch (POST "/api/plugins/similharity/chunks/insert"
        (obj_assign
           (obj_lit
              [("backend", JStr BACKEND_TYPE);
               ("collectionId", JStr "vecthare_main");
               ("items", JArr (map (fun item =>
                   JObj (obj_lit [("hash", hash item);
                                  ("text", text_of item);
                                  ("index", index item);
                                  ("vector", vector_of item);
                                  ("metadata", JObj (item_metadata item))]))
                   items));
               ("source", source_of settings);
               ("model", getModelFromSettings settings);
               ("filters", filters_of t)])
           providerParams)) ;;
    if negb (ok response) then
      Throw (Error ([Lit "[Milvus] Failed to insert "; Num (len items);
                     Lit " vectors into "] ++ tenant_context collectionId t
                    ++ failure response))
    else Return tt.

Definition queryCollection_body (collectionId searchText : string) (topK : nat)
           (settings : obj) : obj :=
  let t := _parseCollectionId (JStr collectionId) in
  let providerParams := getProviderSpecificParams host settings true in
  obj_assign
    (obj_lit [("backend", JStr BACKEND_TYPE);
              ("collectionId", JStr "vecthare_main");
              ("searchText", JStr searchText);
              ("topK", JInt (Z.of_nat topK));
              ("threshold", JNum 0);
              ("source", source_of settings);
              ("model", getModelFromSettings settings);
              ("filters", filters_of t)])
    providerParams.

Definition queryCollection (collectionId searchText : string) (topK : nat)
           (settings : obj) : Async Json :=
  let t := _parseCollectionId (JStr collectionId) in
  response <- fetch (POST "/api/plugins/similharity/chunks/query"
                       (queryCollection_body collectionId searchText topK settings)) ;;
  if negb (ok response) then
    Throw (Error ([Lit "[Milvus] Failed to query collection "]
                  ++ tenant_context collectionId t ++ failure response))
  else
    data <- json response ;;
    results <- lift (prop data "results") ;;
    lift (format_results results).

(** The request of one turn of the loop of [queryMultipleCollections]. *)
Definition query_one_request (searchText : string) (topK : nat) (threshold : Q)
           (settings : obj) (providerParams : obj) (collectionId : string) : Request :=
  let t := _parseCollectionId (JStr collectionId) in
  POST "/api/plugins/similharity/chunks/query"
    (obj_assign
       (obj_lit [("backend", JStr BACKEND_TYPE);
                 ("collectionId", JStr "vecthare_main");
                 ("searchText", JStr searchText);
                 ("topK", JInt (Z.of_nat topK));
                 ("threshold", JNum threshold);
                 ("source", source_of settings);
                 ("model", getModelFromSettings settings);
                 ("model", getModelFromSettings settings);
                 ("filters", filters_of t)])
       providerParams).

(** One turn of the loop of [queryMultipleCollections]. *)
Definition query_one (searchText : string) (topK : nat) (threshold : Q) (settings : obj)
           (providerParams : obj) (results : obj) (collectionId : string) : Async obj :=
  try_catch
    (response <- fetch (query_one_request searchText topK threshold settings providerParams
                                          collectionId) ;;
     if ok response then
       data <- json response ;;
       data_results <- lift (prop data "results") ;;
       data_chunks <- lift (prop data "chunks") ;;
       let resultArray := js_or (js_or data_results data_chunks) (JArr []) in
       formatted <- lift (format_results resultArray) ;;
       Return (assign results collectionId formatted)
     else Return (assign results collectionId empty_result))
    (fun error => Return (assign results collectionId empty_result)).

Definition queryMultipleCollections (collectionIds : list string) (searchText : string)
           (topK : nat) (threshold : Q) (settings : obj) : Async Json :=
  let results : obj := [] in
  let providerParams := getProviderSpecificParams host settings true in
  results <- for_of collectionIds results
               (query_one searchText topK threshold settings providerParams) ;;
  Return (JObj results).

Definition purgeVectorIndex (collectionId : string) (settings : obj) : Async unit :=
  let t := _parseCollectionId (JStr collectionId) in
  response <- fetch (POST "/api/plugins/similharity/chunks/purge"
                       (obj_lit [("backend", JStr BACKEND_TYPE);
                                 ("collectionId", JStr "vecthare_main");
                                 ("source", source_of settings);
                                 ("model", getModelFromSettings settings);
                                 ("filters", filters_of t)])) ;;
  if negb (ok response) then
    Throw (Error ([Lit "[Milvus] Failed to purge collection "]
                  ++ tenant_context collectionId t ++ failure response))
  else Return tt.

Definition purgeFileVectorIndex (collectionId : string) (settings : obj) : Async unit :=
  purgeVectorIndex collectionId settings.

Definition purgeAllVectorIndexes (settings : obj) : Async unit :=
  response <- fetch (POST "/api/plugins/similharity/chunks/purge"
                       (obj_lit [("backend", JStr BACKEND_TYPE);
                                 ("collectionId", JStr "vecthare_main");
                                 ("source", source_of settings);
                                 ("model", getModelFromSettings settings)])) ;;
  if negb (ok response) then
    Throw (Error ([Lit "[Milvus] Failed to purge all collections: "]
                  ++ failure response))
  else Return tt.

(** *** The remaining operations *)

(** [VECTOR_LIST_LIMIT] is exported by [core/constants.js], which is not
    among the sources: it is a parameter of the methods that use it. *)
Variable VECTOR_LIST_LIMIT : Z.

(** [data.items ? data.items.map(item => item.hash) : []]. *)
Definition item_hashes (data : Json) : Result (list Json) :=
  rbind (prop data "items") (fun items =>
  if truthy items then
    match items with
    | JArr xs => mapM (fun item => prop item "hash") xs
    | _ => Thrown (TypeError "map is not a function")
    end
  else Ok []).

Definition getSavedHashes (collectionId : string) (settings : obj) : Async (list Json) :=
  let t := _parseCollectionId (JStr collectionId) in
  response <- fetch (POST "/api/plugins/similharity/chunks/list"
                       (obj_lit [("backend", JStr BACKEND_TYPE);
                                 ("collectionId", JStr "vecthare_main");
                                 ("source", source_of settings);
                                 ("model", getModelFromSettings settings);
                                 ("limit", JInt VECTOR_LIST_LIMIT);
                                 ("filters", filters_of t)])) ;;
  if negb (ok response) then
    Throw (Error ([Lit "[Milvus] Failed to get saved hashes for "]
                  ++ tenant_context collectionId t ++ failure response))
  else
    data <- json response ;;
    lift (item_hashes data).

Definition deleteVectorItems (collectionId : string) (hashes : list Json) (settings : obj)
  : Async unit :=
  let t := _parseCollectionId (JStr collectionId) in
  response <- fetch (POST "/api/plugins/similharity/chunks/delete"
                       (obj_lit [("backend", JStr BACKEND_TYPE);
                                 ("collectionId", JStr "vecthare_main");
                                 ("hashes", JArr hashes);
                                 ("source", source_of settings);
                                 ("model", getModelFromSettings settings);
                                 ("filters", filters_of t)])) ;;
  if negb (ok response) then
    Throw (Error ([Lit "[Milvus] Failed to delete vectors from "]
                  ++ tenant_context collectionId t ++ failure response))
  else Return tt.

(** The query of the chunk URL, before [new URLSearchParams]. *)
Definition chunk_query (settings : obj) : obj :=
  obj_lit [("backend", JStr BACKEND_TYPE);
           ("collectionId", JStr "vecthare_main");
           ("source", source_of settings);
           ("model", getModelFromSettings settings)].

Definition chunk_url (encoded query : Part) : Template :=
  [Lit "/api/plugins/similharity/chunks/"; encoded; Lit "?"; query].

Definition getChunk (collectionId : string) (hash : Json) (settings : obj) : Async Json :=
  let t := _parseCollectionId (JStr collectionId) in
  encoded <- lift (encodeURIComponent hash) ;;
  query <- lift (URLSearchParams (chunk_query settings)) ;;
  response <- fetch (GET (chunk_url encoded query)) ;;
  if negb (ok response) then
    if (status response =? 404)%Z then Return JNull
    else
      Throw (Error ([Lit "[Milvus] Failed to get chunk "; Val hash; Lit " from ";
                     Val (JStr collectionId); Lit ": "] ++ failure response))
  else
    data <- json response ;;
    lift (prop data "chunk").

Definition listChunks (collectionId : string) (settings options : obj) : Async Json :=
  let t := _parseCollectionId (JStr collectionId) in
  response <- fetch (POST "/api/plugins/similharity/chunks/list"
                       (obj_lit [("backend", JStr BACKEND_TYPE);
                                 ("collectionId", JStr "vecthare_main");
                                 ("source", source_of settings);
                                 ("model", getModelFromSettings settings);
                                 ("offset", js_or (obj_get options "offset") (JInt 0));
                                 ("limit", js_or (obj_get options "limit") (JInt 100));
                                 ("includeVectors",
                                  js_or (obj_get options "includeVectors") (JBool false));
                                 ("filters", filters_of t)])) ;;
  if negb (ok response) then
    Throw (Error ([Lit "[Milvus] Failed to list chunks in "]
                  ++ tenant_context collectionId t ++ failure response))
  else json response.

Definition updateChunkText (collectionId : string) (hash : Json) (newText : string)
           (settings : obj) : Async Json :=
  let t := _parseCollectionId (JStr collectionId) in
  encoded <- lift (encodeURIComponent hash) ;;
  response <- fetch (PATCH [Lit "/api/plugins/similharity/chunks/"; encoded; Lit "/text"]
                       (obj_lit [("backend", JStr BACKEND_TYPE);
                                 ("collectionId", JStr "vecthare_main");
                                 ("text", JStr newText);
                                 ("source", source_of settings);
                                 ("model", getModelFromSettings settings);
                                 ("filters", filters_of t)])) ;;
  if negb (ok response) then
    Throw (Error ([Lit "[Milvus] Failed to update chunk text in "; Val (JStr collectionId);
                   Lit " (hash: "; Val hash; Lit "): "] ++ failure response))
  else json response.

Definition updateChunkMetadata (collectionId : string) (hash : Json) (metadata : Json)
           (settings : obj) : Async Json :=
  let t := _parseCollectionId (JStr collectionId) in
  encoded <- lift (encodeURIComponent hash) ;;
  response <- fetch (PATCH [Lit "/api/plugins/similharity/chunks/"; encoded;
                            Lit "/metadata"]
                       (obj_lit [("backend", JStr BACKEND_TYPE);
                                 ("collectionId", JStr "vecthare_main");
                                 ("metadata", metadata);
                                 ("source", source_of settings);
                                 ("model", getModelFromSettings settings);
                                 ("filters", filters_of t)])) ;;
  if negb (ok response) then
    Throw (Error ([Lit "[Milvus] Failed to update chunk metadata in ";
                   Val (JStr collectionId); Lit " (hash: "; Val hash; Lit "): "]
                  ++ failure response))
  else json response.

Definition getStats (collectionId : string) (settings : obj) : Async Json :=
  let t := _parseCollectionId (JStr collectionId) in
  response <- fetch (POST "/api/plugins/similharity/chunks/stats"
                       (obj_lit [("backend", JStr BACKEND_TYPE);
                                 ("collectionId", JStr "vecthare_main");
                                 ("source", source_of settings);
                                 ("model", getModelFromSettings settings);
                                 ("filters", filters_of t)])) ;;
  if negb (ok response) then
    Throw (Error ([Lit "[Milvus] Failed to get stats for "]
                  ++ tenant_context collectionId t ++ failure response))
  else
    data <- json response ;;
    lift (prop data "stats").



End WithHost.

End MilvusBackend.

(* ====================================================================== *)
(** ** A reference transport *)
(* ====================================================================== *)

(** The stores behind the endpoints are external collaborators.  The
    reference transport below is the behaviour the adapters rely on: a query
    answers with the [topK] highest-scoring chunks at or above the request's
    [threshold], restricted to the request's collection and, when the request
    carries [filters], to that tenant; a purge removes the chunks the request
    selects ("no filters = purge everything").  The relevance of a chunk to
    the search text is computed by the store; here it is a field of the
    chunk. *)
Module Reference.

Record Chunk := mkChunk {
  c_backend : string;
  c_collection : string;
  c_type : string;
  c_sourceId : string;
  c_hash : Json;
  c_text : string;
  c_score : Q;
  c_metadata : obj
}.

Definition Store := list Chunk.

(** Insertion into a list kept in descending order of score. *)
Fixpoint insert_desc (c : Chunk) (l : list Chunk) : list Chunk :=
  match l with
  | [] => [c]
  | d :: r => if Qle_bool (c_score d) (c_score c)
              then c :: d :: r
              else d :: insert_desc c r
  end.

Definition sort_desc (l : list Chunk) : list Chunk :=
  fold_right insert_desc [] l.

(** The [k] highest-scoring chunks at or above [t]. *)
Definition select (k : nat) (t : Q) (l : list Chunk) : list Chunk :=
  firstn k (sort_desc (filter (fun c => Qle_bool t (c_score c)) l)).

(** Whether a chunk is selected by a request's [filters]. *)
Definition tenant_match (filters : Json) (c : Chunk) : bool :=
  match filters with
  | JObj f =>
      match obj_get f "type", obj_get f "sourceId" with
      | JStr ty, JStr sid => String.eqb (c_type c) ty && String.eqb (c_sourceId c) sid
      | _, _ => false
      end
  | _ => true
  end.

Definition in_scope (backend collection : string) (filters : Json) (c : Chunk) : bool :=
  String.eqb (c_backend c) backend && String.eqb (c_collection c) collection
  && tenant_match filters c.

Definition plugin_entry (c : Chunk) : Json :=
  JObj [("hash", c_hash c); ("text", JStr (c_text c)); ("score", JNum (c_score c));
        ("metadata", JObj (c_metadata c))].

Definition native_entry (c : Chunk) : Json :=
  JObj [("text", JStr (c_text c)); ("score", JNum (c_score c))].

Definition respond (v : Json) : FetchOutcome :=
  Responded (mkResponse 200 "OK" (Some v) None).

Definition bad_request : FetchOutcome :=
  Responded (mkResponse 400 "Bad Request" None (Some "bad request")).

Definition not_found : FetchOutcome :=
  Responded (mkResponse 404 "Not Found" None (Some "not found")).

Definition path_is (r : Request) (p : string) : bool :=
  match url r with
  | [Lit q] => String.eqb q p
  | _ => false
  end.

Definition count_of (v : Json) : option nat :=
  match v with
  | JNum q => Some (Z.to_nat (Qfloor q))
  | _ => None
  end.

Definition plugin_query (s : Store) (b : Json) : FetchOutcome :=
  match body_get b "backend", body_get b "collectionId",
        count_of (body_get b "topK"), body_get b "threshold" with
  | JStr backend, JStr collection, Some k, JNum t =>
      let found := select k t (filter (in_scope backend collection (body_get b "filters")) s) in
      respond (JObj [("results", JArr (map plugin_entry found))])
  | _, _, _, _ => bad_request
  end.

Definition native_query (s : Store) (b : Json) : FetchOutcome :=
  match body_get b "collectionId", count_of (body_get b "topK"), body_get b "threshold" with
  | JStr collection, Some k, JNum t =>
      let found := select k t (filter (in_scope "vectra" collection JUndefined) s) in
      respond (JObj [("hashes", JArr (map c_hash found));
                     ("metadata", JArr (map native_entry found))])
  | _, _, _ => bad_request
  end.

Definition plugin_purge (s : Store) (b : Json) : Store * FetchOutcome :=
  match body_get b "backend", body_get b "collectionId" with
  | JStr backend, JStr collection =>
      (filter (fun c => negb (in_scope backend collection (body_get b "filters") c)) s,
       respond (JObj [("success", JBool true)]))
  | _, _ => (s, bad_request)
  end.

Definition server : Server Store := fun s r =>
  match body r with
  | Some b =>
      if path_is r "/api/plugins/similharity/chunks/query" then (s, plugin_query s b)
      else if path_is r "/api/vector/query" then (s, native_query s b)
      else if path_is r "/api/plugins/similharity/chunks/purge" then plugin_purge s b
      else (s, not_found)
  | None => (s, not_found)
  end.

End Reference.

(** A transport without state that answers every request the same way. *)
Definition always (o : FetchOutcome) : Server unit := fun s _ => (s, o).


(* ====================================================================== *)
(** ** Vocabulary of the statements *)
(* ====================================================================== *)

(** The property names of an object, in order. *)
Definition keys (o : obj) : list string := map fst o.

(** The fields of a serialised object. *)
Definition wire_fields (o : obj) : obj :=
  flat_map (fun kv => match snd kv with
                      | JUndefined => []
                      | x => [(fst kv, stringify x)]
                      end) o.

(** Every field name [getProviderSpecificParams] can produce. *)
Definition PROVIDER_KEYS : list string :=
  ["extrasUrl"; "extrasKey"; "input_type"; "apiUrl"; "keep"; "apiKey"; "api";
   "vertexai_auth_mode"; "vertexai_region"; "vertexai_express_project_id"].

(** The two textual encodings of a collection identifier: the type is the
    text between the first two delimiters, the source id is all the rest. *)
Definition CurrentFormat (s : string) : Prop :=
  exists ty sid, contains ":" ty = false /\ s = ("vh:" ++ ty ++ ":" ++ sid)%string.

Definition LegacyFormat (s : string) : Prop :=
  exists ty sid, contains "_" ty = false /\ s = ("vecthare_" ++ ty ++ "_" ++ sid)%string.

(** What a decoder of collection identifiers does, case by case. *)
Definition decodes_by_cases (decode : Json -> Tenant) : Prop :=
  (forall ty sid, contains ":" ty = false ->
     decode (JStr ("vh:" ++ ty ++ ":" ++ sid)) = mkTenant ty sid)
  /\ (forall ty sid, contains "_" ty = false ->
        decode (JStr ("vecthare_" ++ ty ++ "_" ++ sid)) = mkTenant ty sid)
  /\ (forall s, s <> "" -> ~ CurrentFormat s -> ~ LegacyFormat s ->
        decode (JStr s) = mkTenant "chat" s)
  /\ decode (JStr "") = mkTenant "unknown" "unknown"
  /\ (forall v, is_string v = false -> decode v = mkTenant "unknown" "unknown").

(** The part of the host state that [getProviderSpecificParams] reads for
    the provider the settings select: host values, and the stored secret. *)
Definition host_reads (settings : obj) (host : Host) : list Json * option SecretEntry :=
  let source := obj_get settings "source" in
  let alt := truthy (obj_get settings "use_alt_endpoint") in
  if is_case source "extras" then
    ([obj_get (extension_settings host) "apiUrl";
      obj_get (extension_settings host) "apiKey"], None)
  else if is_case source "ollama" then
    (if alt then [] else [obj_get (server_urls host) (textgen_types_OLLAMA host)], None)
  else if is_case source "llamacpp" then
    (if alt then [] else [obj_get (server_urls host) (textgen_types_LLAMACPP host)], None)
  else if is_case source "vllm" then
    (if alt then [] else [obj_get (server_urls host) (textgen_types_VLLM host)], None)
  else if is_case source "bananabread" then
    ([], assoc "bananabread_api_key" (secret_state host))
  else if is_case source "vertexai" then
    ([obj_get (oai_settings host) "vertexai_auth_mode";
      obj_get (oai_settings host) "vertexai_region";
      obj_get (oai_settings host) "vertexai_express_project_id"], None)
  else ([], None).

(** Two host states for the examples. *)
Definition host_with_extras (apiUrl : string) : Host :=
  mkHost [("apiUrl", JStr apiUrl); ("apiKey", JStr "k")] [] "ollama" "llamacpp" "vllm" [] []
         65535.

Definition bare_host : Host := mkHost [] [] "ollama" "llamacpp" "vllm" [] [] 65535.






(** A store shared by three tenants of the Qdrant adapter and one chunk of
    another backend. *)
Definition shared_store : Reference.Store :=
  [ Reference.mkChunk "qdrant" "vecthare_main" "chat" "a" (JInt 1) "one" (9 # 10) [];
    Reference.mkChunk "qdrant" "vecthare_main" "chat" "a" (JInt 2) "two" (1 # 10) [];
    Reference.mkChunk "qdrant" "vecthare_main" "doc" "b" (JInt 3) "three" (1 # 2) [];
    Reference.mkChunk "qdrant" "vecthare_main" "lorebook" "c" (JInt 4) "four" (3 # 10) [];
    Reference.mkChunk "lancedb" "vh:chat:a" "" "" (JInt 5) "five" (7 # 10) [] ].

(** The paths of the query endpoints. *)
Definition PLUGIN_QUERY_PATH : string := "/api/plugins/similharity/chunks/query".
Definition NATIVE_QUERY_PATH : string := "/api/vector/query".

(** The chunks of a store that a request can see. *)
Definition scope (backend collection : string) (filters : Json) (store : Reference.Store)
  : list Reference.Chunk :=
  filter (Reference.in_scope backend collection filters) store.

(** [sel] is a choice of the [k] highest-scoring chunks of [candidates] at
    or above the threshold [t]: it has [k] chunks, or all that qualify when
    they are fewer; each of them is a candidate at or above [t]; and no
    qualifying candidate left out scores higher than a chosen one. *)
Definition is_top (k : nat) (t : Q) (candidates sel : list Reference.Chunk) : Prop :=
  List.length sel
  = Nat.min k (List.length (filter (fun c => Qle_bool t (Reference.c_score c)) candidates))
  /\ (forall c, In c sel -> In c candidates /\ (t <= Reference.c_score c)%Q)
  /\ (forall c d, In c candidates -> (t <= Reference.c_score c)%Q -> ~ In c sel ->
                  In d sel -> (Reference.c_score c <= Reference.c_score d)%Q).

(** The Query Result an adapter returns for the chosen chunks. *)
Definition query_result (entry : Reference.Chunk -> Json) (sel : list Reference.Chunk) : Json :=
  JObj [("hashes", JArr (map Reference.c_hash sel)); ("metadata", JArr (map entry sel))].

(** The metadata entry of a chunk on the plugin adapters: hash, text and
    score, then the chunk's stored metadata spread over them. *)
Definition plugin_result_entry (c : Reference.Chunk) : Json :=
  JObj (obj_assign [("hash", Reference.c_hash c); ("text", JStr (Reference.c_text c));
                    ("score", JNum (Reference.c_score c))]
                   (Reference.c_metadata c)).

(** The metadata entry of a chunk on the hybrid adapter. *)
Definition native_result_entry (c : Reference.Chunk) : Json :=
  JObj [("hash", Reference.c_hash c); ("text", JStr (Reference.c_text c));
        ("score", JNum (Reference.c_score c))].



(** Descending order of scores. *)
Definition descending : list Reference.Chunk -> Prop :=
  StronglySorted (fun a b => (Reference.c_score b <= Reference.c_score a)%Q).



(** A request that failed: the transport rejected it or answered with a
    status outside 200..299. *)
Definition failed (o : FetchOutcome) : Prop :=
  o = Rejected \/ exists r, o = Responded r /\ ok r = false.







(** An item with a hash, a text and possibly a vector, and nothing else. *)
Definition plain_item (h : Z) (t : string) (v : option (list Q)) : VectorItem :=
  mkItem (JInt h) (Some t) JUndefined v None JUndefined JUndefined JUndefined JUndefined
         JUndefined JUndefined JUndefined JUndefined JUndefined.

(** A list whose second item alone carries a pre-computed vector. *)
Definition mixed_items : list VectorItem :=
  [plain_item 1 "a" None; plain_item 2 "b" (Some [1 # 2])].

(** The same items, the one with the vector first. *)
Definition mixed_items_swapped : list VectorItem :=
  [plain_item 2 "b" (Some [1 # 2]); plain_item 1 "a" None].

Definition accepted : FetchOutcome := Responded (mkResponse 200 "OK" (Some (JObj [])) None).

(** The bodies of the requests a run issued, property [k] of each. *)
Definition sent (k : string) {S A} (r : Run S A) : list Json :=
  map (fun q => match body q with
                | Some b => body_get b k
                | None => JUndefined
                end) (trace r).

(** An array slot of a serialised value. *)
Definition wire_slot (x : Json) : Json :=
  match x with
  | JUndefined => JNull
  | _ => stringify x
  end.

(** A computation that issues no request. *)
Definition quiet {A} (p : Async A) : Prop :=
  match p with
  | Fetch _ _ => False
  | _ => True
  end.

(* ---------------------------------------------------------------------- *)
(** *** Vocabulary of the further properties *)

(** The current-format identifier of a tenant. *)
Definition current_id_of (t : Tenant) : string :=
  ("vh:" ++ type t ++ ":" ++ sourceId t)%string.

(** The legacy identifier of a tenant. *)
Definition legacy_id_of (t : Tenant) : string :=
  ("vecthare_" ++ type t ++ "_" ++ sourceId t)%string.


(** Two runs that issue the same requests and leave the transport in the
    same state. *)
Definition same_effect {S A B} (r1 : Run S A) (r2 : Run S B) : Prop :=
  trace r1 = trace r2 /\ final r1 = final r2.


(** A chunk hash as the application produces them: a number, or a string
    that holds no unpaired surrogate. *)
Definition plain_hash (h : Json) : bool :=
  match h with
  | JNum _ => true
  | JStr s => negb (unpaired_surrogate s)
  | _ => false
  end.

(** A string that is one unpaired surrogate (U+D800). *)
Definition lone_surrogate : string :=
  String (ascii_of_nat 237) (String (ascii_of_nat 160) (String (ascii_of_nat 128) "")).

(** Values that are not objects. *)
Definition primitive (v : Json) : bool :=
  match v with
  | JArr _ | JObj _ => false
  | _ => true
  end.

(** Settings whose values are strings, numbers, booleans or [null]. *)
Definition plain_settings (settings : obj) : Prop :=
  Forall (fun kv => primitive (snd kv) = true) settings.


(** The two requests of [StandardBackend.initialize]: the probe of the
    extension, sent without the host's headers, and the initialisation of
    the extension's backend. *)
Definition PROBE : Request :=
  mkRequest [Lit "/api/plugins/similharity/health"] "GET" false None.

Definition INIT_VECTRA : Request :=
  mkRequest [Lit "/api/plugins/similharity/backend/init/vectra"] "POST" true None.

(** A request to the extension: its path begins with the extension's
    prefix. *)
Definition to_extension (q : Request) : bool :=
  match url q with
  | Lit p :: _ => String.prefix "/api/plugins/similharity/" p
  | _ => false
  end.



(** The fields of an item that the multitenant adapters copy into the
    stored metadata by name. *)
Definition NAMED_FIELDS (item : VectorItem) : obj :=
  [("importance", importance item);
   ("keywords", keywords item);
   ("customWeights", customWeights item);
   ("disabledKeywords", disabledKeywords item);
   ("chunkGroup", chunkGroup item);
   ("conditions", conditions item);
   ("summary", summary item);
   ("isSummaryChunk", isSummaryChunk item);
   ("parentHash", parentHash item)].

(** An item whose metadata object has an importance and a note, and whose
    own importance is not set. *)
Definition annotated_item : VectorItem :=
  mkItem (JInt 1) (Some "a") JUndefined None
         (Some [("importance", JInt 5); ("note", JStr "n")])
         JUndefined JUndefined JUndefined JUndefined JUndefined JUndefined JUndefined
         JUndefined JUndefined.








(** The answer of a store that does not hold the chunk asked for. *)
Definition not_found_answer : FetchOutcome :=
  Responded (mkResponse 404 "Not Found" None None).
(* ====================================================================== *)
(** * Properties *)
(* ====================================================================== *)

(** ** Objects *)


Lemma obj_has_In (o : obj) (k : string) : obj_has o k = true <-> In k (keys o).
Proof.
  induction o as [|[k' v] r IH]; simpl.
  - split; [discriminate | tauto].
  - rewrite orb_true_iff, IH, String.eqb_eq. tauto.
Qed.

Lemma obj_get_absent (o : obj) (k : string) : obj_has o k = false -> obj_get o k = JUndefined.
Proof.
  induction o as [|[k' v] r IH]; simpl; [reflexivity|].
  destruct (String.eqb k' k); simpl; [discriminate | exact IH].
Qed.

Lemma obj_get_set_eq (o : obj) (k : string) (v : Json) : obj_get (obj_set o k v) k = v.
Proof.
  induction o as [|[k' v'] r IH]; simpl.
  - now rewrite String.eqb_refl.
  - destruct (String.eqb k' k) eqn:E; simpl; rewrite E; [reflexivity | exact IH].
Qed.

Lemma obj_get_set_neq (o : obj) (k k' : string) (v : Json) :
  k' <> k -> obj_get (obj_set o k' v) k = obj_get o k.
Proof.
  intros N. induction o as [|[k0 v0] r IH]; simpl.
  - apply String.eqb_neq in N. now rewrite N.
  - destruct (String.eqb k0 k') eqn:E; simpl.
    + apply String.eqb_eq in E. subst k0. apply String.eqb_neq in N. now rewrite N.
    + now rewrite IH.
Qed.

Lemma obj_has_set (o : obj) (k k' : string) (v : Json) :
  obj_has (obj_set o k' v) k = String.eqb k' k || obj_has o k.
Proof.
  induction o as [|[k0 v0] r IH]; simpl.
  - reflexivity.
  - destruct (String.eqb k0 k') eqn:E; simpl.
    + apply String.eqb_eq in E. subst k0. now destruct (String.eqb k' k).
    + rewrite IH. destruct (String.eqb k0 k), (String.eqb k' k); reflexivity.
Qed.

Lemma keys_set (o : obj) (k : string) (v : Json) :
  keys (obj_set o k v) = if obj_has o k then keys o else keys o ++ [k].
Proof.
  unfold keys.
  induction o as [|[k0 v0] r IH]; simpl; [reflexivity|].
  destruct (String.eqb k0 k) eqn:E; simpl; [reflexivity|].
  rewrite IH. now destruct (obj_has r k).
Qed.

Lemma NoDup_keys_set (o : obj) (k : string) (v : Json) :
  NoDup (keys o) -> NoDup (keys (obj_set o k v)).
Proof.
  intros H. rewrite keys_set. destruct (obj_has o k) eqn:E; [exact H|].
  apply NoDup_app; [exact H | repeat constructor; simpl; tauto |].
  intros x Hx [<-|[]]. apply obj_has_In in Hx. congruence.
Qed.

Lemma NoDup_keys_assign (src o : obj) : NoDup (keys o) -> NoDup (keys (obj_assign o src)).
Proof.
  unfold obj_assign. revert o.
  induction src as [|[k v] r IH]; intros o H; simpl; [exact H|].
  apply IH, NoDup_keys_set, H.
Qed.

Lemma NoDup_keys_lit (fields : obj) : NoDup (keys (obj_lit fields)).
Proof. apply NoDup_keys_assign. constructor. Qed.

Lemma obj_has_assign (src o : obj) (k : string) :
  obj_has (obj_assign o src) k = obj_has src k || obj_has o k.
Proof.
  unfold obj_assign. revert o.
  induction src as [|[k' v] r IH]; intros o; simpl; [reflexivity|].
  rewrite IH, obj_has_set.
  destruct (String.eqb k' k), (obj_has r k); reflexivity.
Qed.

(** A spread that does not mention [k] leaves the property alone. *)
Lemma obj_get_assign_absent (src o : obj) (k : string) :
  obj_has src k = false -> obj_get (obj_assign o src) k = obj_get o k.
Proof.
  unfold obj_assign. revert o.
  induction src as [|[k' v] r IH]; intros o H; simpl in *; [reflexivity|].
  apply orb_false_iff in H as [H1 H2].
  rewrite IH by exact H2. apply obj_get_set_neq. now apply String.eqb_neq.
Qed.

(** A spread that mentions [k] (once) overrides the property. *)
Lemma obj_get_assign_present (src o : obj) (k : string) :
  NoDup (keys src) -> obj_has src k = true -> obj_get (obj_assign o src) k = obj_get src k.
Proof.
  unfold obj_assign. revert o.
  induction src as [|[k' v] r IH]; intros o N H; simpl in *; [discriminate|].
  inversion N as [|? ? Hnotin N']; subst.
  destruct (String.eqb k' k) eqn:E.
  - apply String.eqb_eq in E. subst k'.
    assert (Hr : obj_has r k = false).
    { destruct (obj_has r k) eqn:Hr; [|reflexivity].
      apply obj_has_In in Hr. contradiction. }
    change (fold_left (fun acc kv => obj_set acc (fst kv) (snd kv)) r (obj_set o k v))
      with (obj_assign (obj_set o k v) r).
    rewrite obj_get_assign_absent by exact Hr. apply obj_get_set_eq.
  - simpl in H. apply IH; assumption.
Qed.


Lemma stringify_obj (o : obj) : stringify (JObj o) = JObj (wire_fields o).
Proof.
  simpl. f_equal. induction o as [|[k x] r IH]; simpl; [reflexivity|].
  rewrite IH. destruct x; reflexivity.
Qed.

Lemma wire_fields_has (o : obj) (k : string) :
  obj_has (wire_fields o) k = true -> obj_has o k = true.
Proof.
  induction o as [|[k' x] r IH]; simpl; [discriminate|].
  intros H. apply orb_true_iff.
  destruct x; simpl in H;
    try (apply orb_true_iff in H as [H|H]; [now left | right; now apply IH]).
  right. now apply IH.
Qed.

(** Reading a property of a serialised object. *)
Lemma body_get_stringify (o : obj) (k : string) :
  NoDup (keys o) -> body_get (stringify (JObj o)) k = stringify (obj_get o k).
Proof.
  rewrite stringify_obj. simpl.
  induction o as [|[k' x] r IH]; intros N; simpl; [reflexivity|].
  inversion N as [|? ? Hnotin N']; subst.
  destruct (String.eqb k' k) eqn:E.
  - apply String.eqb_eq in E. subst k'.
    assert (Hr : obj_has (wire_fields r) k = false).
    { destruct (obj_has (wire_fields r) k) eqn:Hr; [|reflexivity].
      apply wire_fields_has, obj_has_In in Hr. contradiction. }
    destruct x; simpl; rewrite ?String.eqb_refl; try reflexivity.
    now apply obj_get_absent.
  - destruct x; simpl; rewrite ?E; now apply IH.
Qed.

(** ** Strings *)

Lemma split_not_nil (sep : ascii) (s : string) : split sep s <> [].
Proof.
  destruct s as [|c r]; simpl; [discriminate|].
  destruct (Ascii.eqb c sep); [discriminate|].
  destruct (split sep r); discriminate.
Qed.

(** A string without the separator is a single part. *)
Lemma split_plain (sep : ascii) (s : string) : contains sep s = false -> split sep s = [s].
Proof.
  induction s as [|c r IH]; simpl; [reflexivity|].
  intros H. apply orb_false_iff in H as [H1 H2].
  now rewrite H1, IH.
Qed.

(** The first separator ends the first part. *)
Lemma split_app (sep : ascii) (a b : string) :
  contains sep a = false -> split sep (a ++ String sep b)%string = a :: split sep b.
Proof.
  induction a as [|c r IH]; simpl.
  - intros _. now rewrite Ascii.eqb_refl.
  - intros H. apply orb_false_iff in H as [H1 H2].
    now rewrite H1, IH.
Qed.

Lemma join_cons (sep : ascii) (p : string) (r : list string) :
  r <> [] -> join sep (p :: r) = (p ++ String sep (join sep r))%string.
Proof. destruct r; [congruence | reflexivity]. Qed.

(** Joining the parts of a split gives the string back. *)
Lemma join_split (sep : ascii) (s : string) : join sep (split sep s) = s.
Proof.
  induction s as [|c r IH]; simpl; [reflexivity|].
  destruct (Ascii.eqb c sep) eqn:E.
  - apply Ascii.eqb_eq in E. subst c.
    rewrite join_cons by apply split_not_nil. simpl. now rewrite IH.
  - pose proof (split_not_nil sep r) as N.
    destruct (split sep r) as [|h t]; [congruence|].
    destruct t as [|h' t'].
    + simpl in *. now rewrite IH.
    + rewrite join_cons by discriminate. rewrite join_cons in IH by discriminate.
      rewrite <- IH. reflexivity.
Qed.

(** No part of a split holds the separator. *)
Lemma split_parts_plain (sep : ascii) (s p : string) :
  In p (split sep s) -> contains sep p = false.
Proof.
  revert p. induction s as [|c r IH]; simpl; intros p H.
  - destruct H as [<-|[]]. reflexivity.
  - destruct (Ascii.eqb c sep) eqn:E.
    + destruct H as [<-|H]; [reflexivity | now apply IH].
    + pose proof (split_not_nil sep r) as N.
      destruct (split sep r) as [|h t]; [congruence|].
      destruct H as [<-|H].
      * simpl. rewrite E. apply IH. now left.
      * apply IH. now right.
Qed.

(** ** Running a method *)

Lemma run_bind {S A B} (srv : Server S) (p : Async A) (f : A -> Async B) (s : S) :
  run srv (bind p f) s =
  match result (run srv p s) with
  | Ok a =>
      let r' := run srv (f a) (final (run srv p s)) in
      mkRun (final r') (trace (run srv p s) ++ trace r') (result r')
  | Thrown e => mkRun (final (run srv p s)) (trace (run srv p s)) (Thrown e)
  end.
Proof.
  revert s. induction p as [a|e|req k IH]; intros s; simpl.
  - now destruct (run srv (f a) s).
  - reflexivity.
  - destruct (srv s req) as [s' o]. simpl. rewrite IH.
    now destruct (result (run srv (k o) s')).
Qed.


(** ** Provider parameters *)


Lemma providerParams_keys (host : Host) (settings : obj) (isQuery : bool) :
  incl (keys (getProviderSpecificParams host settings isQuery)) PROVIDER_KEYS
  /\ NoDup (keys (getProviderSpecificParams host settings isQuery)).
Proof.
  unfold getProviderSpecificParams.
  repeat match goal with
         | |- context [if is_case ?v ?l then _ else _] => destruct (is_case v l)
         end;
    try match goal with
        | |- context [assoc ?k ?l] => destruct (assoc k l) as [[secrets|other]|]
        end;
    try match goal with
        | |- context [if truthy ?v then _ else _] => destruct (truthy v)
        end;
    cbn; (split; [ intros x Hx; simpl in Hx; unfold PROVIDER_KEYS; simpl; tauto
                 | repeat constructor; simpl; intuition discriminate ]).
Qed.

(** A field that no provider parameter is named after. *)
Lemma providerParams_absent (host : Host) (settings : obj) (isQuery : bool) (k : string) :
  ~ In k PROVIDER_KEYS -> obj_has (getProviderSpecificParams host settings isQuery) k = false.
Proof.
  intros N. destruct (obj_has _ k) eqn:E; [|reflexivity].
  apply obj_has_In in E. apply (proj1 (providerParams_keys host settings isQuery)) in E.
  contradiction.
Qed.

(** ** Collection identifier codec *)

(** When the test of a format succeeds, the string has that format and the
    decoded pair is read off it. *)
Lemma split_shape (sep : ascii) (s head : string) :
  (3 <=? List.length (split sep s))%nat && String.eqb (nth 0 (split sep s) "") head = true ->
  exists ty sid,
    contains sep ty = false
    /\ s = (head ++ String sep (ty ++ String sep sid))%string
    /\ nth 1 (split sep s) "" = ty
    /\ join sep (slice 2 (split sep s)) = sid.
Proof.
  intros H. apply andb_true_iff in H as [Hlen Hhead].
  apply Nat.leb_le in Hlen. apply String.eqb_eq in Hhead.
  pose proof (join_split sep s) as J.
  pose proof (split_parts_plain sep s) as P.
  destruct (split sep s) as [|p0 [|p1 [|p2 rest]]]; simpl in Hlen; try lia.
  simpl in Hhead. subst p0.
  exists p1, (join sep (p2 :: rest)). repeat split.
  - apply P. right. now left.
  - rewrite <- J. reflexivity.
Qed.

Lemma current_id (ty sid : string) :
  contains ":" ty = false ->
  split ":" ("vh:" ++ ty ++ ":" ++ sid) = "vh" :: ty :: split ":" sid.
Proof.
  intros H.
  change ("vh:" ++ ty ++ ":" ++ sid)%string
    with ("vh" ++ String ":" (ty ++ String ":" sid))%string.
  rewrite split_app by reflexivity. now rewrite split_app.
Qed.

Lemma legacy_id (ty sid : string) :
  contains "_" ty = false ->
  split "_" ("vecthare_" ++ ty ++ "_" ++ sid) = "vecthare" :: ty :: split "_" sid.
Proof.
  intros H.
  change ("vecthare_" ++ ty ++ "_" ++ sid)%string
    with ("vecthare" ++ String "_" (ty ++ String "_" sid))%string.
  rewrite split_app by reflexivity. now rewrite split_app.
Qed.

(** A legacy identifier never passes the test of the current format. *)
Lemma legacy_not_current (rest : string) :
  String.eqb (nth 0 (split ":" ("vecthare_" ++ rest)) "") "vh" = false.
Proof.
  simpl. destruct (split ":" rest) as [|h t]; reflexivity.
Qed.

Lemma three_parts (a b : string) (l : list string) :
  l <> [] -> (3 <=? List.length (a :: b :: l))%nat = true.
Proof. destruct l; [congruence | reflexivity]. Qed.

Lemma Qdrant_decodes_by_cases : decodes_by_cases QdrantBackend._parseCollectionId.
Proof.
  unfold decodes_by_cases, QdrantBackend._parseCollectionId.
  split; [|split; [|split; [|split]]].
  - intros ty sid H. cbn [truthy is_string negb orb].
    change (String.eqb ("vh:" ++ ty ++ ":" ++ sid) "") with false. cbn [negb orb].
    rewrite current_id by exact H.
    rewrite three_parts by apply split_not_nil.
    cbn [nth andb slice skipn]. rewrite String.eqb_refl.
    now rewrite join_split.
  - intros ty sid H. cbn [truthy is_string negb orb].
    change (String.eqb ("vecthare_" ++ ty ++ "_" ++ sid) "") with false. cbn [negb orb].
    rewrite legacy_not_current, andb_false_r.
    rewrite legacy_id by exact H.
    rewrite three_parts by apply split_not_nil.
    cbn [nth andb slice skipn]. rewrite String.eqb_refl.
    now rewrite join_split.
  - intros s Hs Hc Hl. cbn [truthy is_string negb orb].
    apply String.eqb_neq in Hs. rewrite Hs. cbn [negb orb].
    destruct ((3 <=? List.length (split ":" s))%nat
              && String.eqb (nth 0 (split ":" s) "") "vh") eqn:E1.
    { exfalso. apply Hc. apply split_shape in E1 as (ty & sid & H1 & H2 & _).
      exists ty, sid. split; [exact H1 | exact H2]. }
    destruct ((3 <=? List.length (split "_" s))%nat
              && String.eqb (nth 0 (split "_" s) "") "vecthare") eqn:E2.
    { exfalso. apply Hl. apply split_shape in E2 as (ty & sid & H1 & H2 & _).
      exists ty, sid. split; [exact H1 | exact H2]. }
    reflexivity.
  - reflexivity.
  - intros v Hv. rewrite Hv. cbn [negb]. now rewrite orb_true_r.
Qed.

(** The Milvus decoder is the Qdrant decoder. *)
Lemma Milvus_parse_unfold (v : Json) :
  MilvusBackend._parseCollectionId v = QdrantBackend._parseCollectionId v.
Proof. reflexivity. Qed.

(** C2 (as amended): on both multitenant adapters [_parseCollectionId] is a
    total function that decodes a current-format id [vh:<type>:<sourceId>]
    and a legacy id [vecthare_<type>_<sourceId>] at their first two
    delimiters, decodes every other non-empty string [s] to
    [("chat", s)], and decodes the empty string and every value that
    is not a string to [("unknown", "unknown")]. *)
Theorem parseCollectionId_decodes :
  decodes_by_cases QdrantBackend._parseCollectionId
  /\ decodes_by_cases MilvusBackend._parseCollectionId.
Proof.
  split; [exact Qdrant_decodes_by_cases|].
  pose proof Qdrant_decodes_by_cases as (H1 & H2 & H3 & H4 & H5).
  unfold decodes_by_cases. repeat split; intros; rewrite Milvus_parse_unfold; auto.
Qed.

(** The examples of the specification, obtained from the theorem. *)
Lemma parseCollectionId_decodes_witness :
  QdrantBackend._parseCollectionId (JStr "vh:chat:abc:def") = mkTenant "chat" "abc:def"
  /\ QdrantBackend._parseCollectionId (JStr "vecthare_doc_char_456") = mkTenant "doc" "char_456"
  /\ MilvusBackend._parseCollectionId (JStr "garbage") = mkTenant "chat" "garbage"
  /\ MilvusBackend._parseCollectionId JNull = mkTenant "unknown" "unknown".
Proof.
  destruct parseCollectionId_decodes as [(Q1 & Q2 & _) (_ & _ & M3 & _ & M5)].
  split; [|split; [|split]].
  - apply (Q1 "chat" "abc:def"). reflexivity.
  - apply (Q2 "doc" "char_456"). reflexivity.
  - apply (M3 "garbage").
    + discriminate.
    + intros (ty & sid & _ & E). discriminate E.
    + intros (ty & sid & _ & E). discriminate E.
  - apply (M5 JNull). reflexivity.
Defined.

(** C2 (as stated) fails: the empty string has neither format, yet it is
    not decoded to [("chat", "")] but to [("unknown", "unknown")]. *)
Lemma parseCollectionId_empty_id :
  (CurrentFormat "" -> False) /\ (LegacyFormat "" -> False)
  /\ QdrantBackend._parseCollectionId (JStr "") = mkTenant "unknown" "unknown"
  /\ MilvusBackend._parseCollectionId (JStr "") = mkTenant "unknown" "unknown"
  /\ QdrantBackend._parseCollectionId (JStr "") <> mkTenant "chat" ""
  /\ MilvusBackend._parseCollectionId (JStr "") <> mkTenant "chat" "".
Proof.
  repeat split; try discriminate.
  - intros (ty & sid & _ & E). discriminate E.
  - intros (ty & sid & _ & E). discriminate E.
Qed.

(** C10: the decoders of the two multitenant adapters agree on every value,
    so both adapters attach the same tenant filter for a collection id. *)
Theorem parseCollectionId_agree (v : Json) :
  QdrantBackend._parseCollectionId v = MilvusBackend._parseCollectionId v
  /\ filters_of (QdrantBackend._parseCollectionId v)
     = filters_of (MilvusBackend._parseCollectionId v).
Proof.
  destruct v as [| |b|q|s|xs|fields]; split; reflexivity.
Qed.

(** ** Provider parameter resolver *)

(** C9 (as amended): for the same settings and the same query-vs-insert
    flag, two invocations of [getProviderSpecificParams] return equal
    parameter objects whenever the host state that the selected provider's
    branch reads is the same at both invocations.  The function is a
    pure function of the settings, the flag and that state: it writes
    nothing. *)
Theorem getProviderSpecificParams_stable (h1 h2 : Host) (settings : obj) (isQuery : bool) :
  host_reads settings h1 = host_reads settings h2 ->
  getProviderSpecificParams h1 settings isQuery = getProviderSpecificParams h2 settings isQuery.
Proof.
  unfold host_reads, getProviderSpecificParams, endpoint.
  intros H.
  destruct (is_case (obj_get settings "source") "extras") eqn:E1.
  { injection H as -> ->. reflexivity. }
  destruct (is_case (obj_get settings "source") "cohere") eqn:E2; [reflexivity|].
  destruct (is_case (obj_get settings "source") "ollama") eqn:E3.
  { destruct (truthy (obj_get settings "use_alt_endpoint")); [reflexivity|].
    injection H as ->. reflexivity. }
  destruct (is_case (obj_get settings "source") "llamacpp") eqn:E4.
  { destruct (truthy (obj_get settings "use_alt_endpoint")); [reflexivity|].
    injection H as ->. reflexivity. }
  destruct (is_case (obj_get settings "source") "vllm") eqn:E5.
  { destruct (truthy (obj_get settings "use_alt_endpoint")); [reflexivity|].
    injection H as ->. reflexivity. }
  destruct (is_case (obj_get settings "source") "bananabread") eqn:E6.
  { injection H as ->. reflexivity. }
  destruct (is_case (obj_get settings "source") "palm") eqn:E7; [reflexivity|].
  destruct (is_case (obj_get settings "source") "vertexai") eqn:E8.
  { injection H as -> -> ->. reflexivity. }
  reflexivity.
Qed.

(** Two hosts that differ in what the Cohere branch never reads. *)
Lemma getProviderSpecificParams_stable_witness :
  getProviderSpecificParams (host_with_extras "http://a") [("source", JStr "cohere")] true
  = getProviderSpecificParams (host_with_extras "http://b") [("source", JStr "cohere")] true.
Proof.
  apply (getProviderSpecificParams_stable
           (host_with_extras "http://a") (host_with_extras "http://b")
           [("source", JStr "cohere")] true).
  reflexivity.
Defined.

(** C9 (as stated) fails: with the same settings and the same flag the
    result changes when the host changes [extension_settings.apiUrl]
    between two invocations. *)
Lemma getProviderSpecificParams_follows_host :
  getProviderSpecificParams (host_with_extras "http://a") [("source", JStr "extras")] false
  = [("extrasUrl", JStr "http://a"); ("extrasKey", JStr "k")]
  /\ getProviderSpecificParams (host_with_extras "http://b") [("source", JStr "extras")] false
     = [("extrasUrl", JStr "http://b"); ("extrasKey", JStr "k")]
  /\ getProviderSpecificParams (host_with_extras "http://a") [("source", JStr "extras")] false
     <> getProviderSpecificParams (host_with_extras "http://b") [("source", JStr "extras")] false.
Proof.
  split; [reflexivity|]. split; [reflexivity|]. discriminate.
Qed.

(** ** Liveness probes *)

Lemma run_fetch_step {S A} (srv : Server S) (req : Request) (k : FetchOutcome -> Async A) (s : S) :
  run srv (Fetch req k) s =
  mkRun (final (run srv (k (snd (srv s req))) (fst (srv s req))))
        (req :: trace (run srv (k (snd (srv s req))) (fst (srv s req))))
        (result (run srv (k (snd (srv s req))) (fst (srv s req)))).
Proof. simpl. now destruct (srv s req). Qed.




(** ** Extended operations without the extension *)

(** A failed probe leaves the instance without the extension. *)
Lemma initialize_probe_failed {S} (srv : Server S) (s : S)
      (this : StandardBackend.Instance) (settings : obj) :
  (snd (srv s (mkRequest [Lit "/api/plugins/similharity/health"] "GET" false None)) = Rejected
   \/ exists r, snd (srv s (mkRequest [Lit "/api/plugins/similharity/health"] "GET" false None))
                = Responded r /\ ok r = false) ->
  result (run srv (StandardBackend.initialize this settings) s)
  = Ok (StandardBackend.mkInstance false).
Proof.
  intros H. unfold StandardBackend.initialize. cbn [fetch bind try_catch].
  rewrite run_fetch_step.
  destruct H as [H|(r & H & Hok)]; rewrite H; cbn [bind try_catch run result].
  - reflexivity.
  - cbn [StandardBackend.pluginAvailable]. rewrite Hok. reflexivity.
Qed.

(** C7: without the extension ([pluginAvailable] is false) [listChunks]
    returns the native hash list, each hash wrapped with empty text and
    empty metadata, and the number of hashes as total; [getChunk] returns
    [null]; [updateChunkText] and [updateChunkMetadata] throw their
    "requires the Similharity plugin" error without any request;
    [getStats] returns the bare count; [discoverCollections] returns
    [null]. *)
Theorem native_only_degrades {S} (srv : Server S) (s : S) (host : Host)
        (this : StandardBackend.Instance) (collectionId newText : string)
        (settings options : obj) (hash metadata : Json) :
  StandardBackend.pluginAvailable this = false ->
  let native := run srv (StandardBackend.getSavedHashes host collectionId settings) s in
  run srv (StandardBackend.listChunks host this collectionId settings options) s
  = mkRun (final native) (trace native)
          (match result native with
           | Ok hashes =>
               Ok (JObj [("items",
                          JArr (map (fun h => JObj [("hash", h); ("text", JStr "");
                                                    ("metadata", JObj [])]) hashes));
                         ("total", JInt (len hashes))])
           | Thrown e => Thrown e
           end)
  /\ run srv (StandardBackend.getChunk this collectionId hash settings) s
     = mkRun s [] (Ok JNull)
  /\ run srv (StandardBackend.updateChunkText this collectionId hash newText settings) s
     = mkRun s [] (Thrown (Error [Lit "Chunk text editing requires the Similharity plugin"]))
  /\ run srv (StandardBackend.updateChunkMetadata this collectionId hash metadata settings) s
     = mkRun s [] (Thrown (Error [Lit "Chunk metadata editing requires the Similharity plugin"]))
  /\ run srv (StandardBackend.getStats host this collectionId settings) s
     = mkRun (final native) (trace native)
             (match result native with
              | Ok hashes => Ok (JObj [("count", JInt (len hashes)); ("source", JStr "native")])
              | Thrown e => Thrown e
              end)
  /\ run srv (StandardBackend.discoverCollections this settings) s
     = mkRun s [] (Ok JNull).
Proof.
  intros Hplugin native.
  unfold StandardBackend.listChunks, StandardBackend.getChunk,
    StandardBackend.updateChunkText, StandardBackend.updateChunkMetadata,
    StandardBackend.getStats, StandardBackend.discoverCollections.
  rewrite Hplugin. cbn [negb bind].
  repeat split; try reflexivity.
  - rewrite run_bind. fold native.
    destruct (result native) as [hashes|e]; [|reflexivity].
    cbn [run final trace result]. rewrite app_nil_r. reflexivity.
  - rewrite run_bind. fold native.
    destruct (result native) as [hashes|e]; [|reflexivity].
    cbn [run final trace result]. rewrite app_nil_r. reflexivity.
Qed.

(** A freshly constructed instance against a transport that lists two
    hashes. *)
Lemma native_only_degrades_witness :
  result (run (always (Responded (mkResponse 200 "OK" (Some (JArr [JInt 7; JInt 9])) None)))
              (StandardBackend.listChunks bare_host StandardBackend.constructor "vh:chat:a" [] [])
              tt)
  = Ok (JObj [("items", JArr [JObj [("hash", JInt 7); ("text", JStr ""); ("metadata", JObj [])];
                              JObj [("hash", JInt 9); ("text", JStr ""); ("metadata", JObj [])]]);
              ("total", JInt 2)])
  /\ result (run (always (Responded (mkResponse 200 "OK" (Some (JArr [JInt 7; JInt 9])) None)))
                 (StandardBackend.updateChunkText StandardBackend.constructor "vh:chat:a"
                    (JInt 7) "new text" [])
                 tt)
     = Thrown (Error [Lit "Chunk text editing requires the Similharity plugin"]).
Proof.
  pose proof (native_only_degrades
                (always (Responded (mkResponse 200 "OK" (Some (JArr [JInt 7; JInt 9])) None)))
                tt bare_host StandardBackend.constructor "vh:chat:a" "new text" [] []
                (JInt 7) JNull eq_refl) as (H1 & _ & H3 & _).
  split.
  - rewrite H1. reflexivity.
  - rewrite H3. reflexivity.
Defined.

(** ** Normalisation of the native query answer *)





(** ** Requests on the wire and the reference transport *)



Lemma path_is_POST (p q : string) (b : obj) :
  Reference.path_is (POST p b) q = String.eqb p q.
Proof. reflexivity. Qed.


Lemma run_one_request {S A} (srv : Server S) (req : Request) (s : S)
      (k : Response -> Async A) :
  (forall r, exists x, k r = Return x \/ exists e, k r = Throw e) ->
  trace (run srv (response <- fetch req ;; k response) s) = [req]
  /\ final (run srv (response <- fetch req ;; k response) s) = fst (srv s req).
Proof.
  intros H. cbn [fetch bind]. rewrite run_fetch_step. cbn [trace final].
  destruct (snd (srv s req)) as [|r]; cbn [bind run trace final]; [now split|].
  destruct (H r) as (x & [E|(e & E)]); rewrite E; now split.
Qed.

Ltac returns_or_throws :=
  let r := fresh "r" in
  intros r; exists tt; destruct (negb (ok r)); [right; eexists; reflexivity | now left].


(** ** The selection of the reference transport *)

Lemma insert_desc_In (c x : Reference.Chunk) (l : list Reference.Chunk) :
  In x (Reference.insert_desc c l) <-> x = c \/ In x l.
Proof.
  induction l as [|d r IH]; simpl.
  - intuition.
  - destruct (Qle_bool (Reference.c_score d) (Reference.c_score c)); simpl.
    + intuition.
    + rewrite IH. intuition.
Qed.

Lemma insert_desc_length (c : Reference.Chunk) (l : list Reference.Chunk) :
  List.length (Reference.insert_desc c l) = S (List.length l).
Proof.
  induction l as [|d r IH]; simpl; [reflexivity|].
  destruct (Qle_bool _ _); simpl; [reflexivity | now rewrite IH].
Qed.

Lemma sort_desc_In (x : Reference.Chunk) (l : list Reference.Chunk) :
  In x (Reference.sort_desc l) <-> In x l.
Proof.
  induction l as [|c r IH]; simpl; [tauto|].
  rewrite insert_desc_In, IH. intuition.
Qed.

Lemma sort_desc_length (l : list Reference.Chunk) :
  List.length (Reference.sort_desc l) = List.length l.
Proof.
  induction l as [|c r IH]; simpl; [reflexivity|].
  now rewrite insert_desc_length, IH.
Qed.

Lemma insert_desc_descending (c : Reference.Chunk) (l : list Reference.Chunk) :
  descending l -> descending (Reference.insert_desc c l).
Proof.
  unfold descending. induction l as [|d r IH]; intros H; simpl.
  - repeat constructor.
  - inversion H as [|? ? Hr Hd]; subst.
    destruct (Qle_bool (Reference.c_score d) (Reference.c_score c)) eqn:E.
    + apply Qle_bool_iff in E. constructor; [exact H|].
      constructor; [exact E|].
      rewrite Forall_forall in *. intros x Hx. eapply Qle_trans; [apply Hd, Hx | exact E].
    + constructor; [now apply IH|].
      rewrite Forall_forall in *. intros x Hx. apply insert_desc_In in Hx as [->|Hx].
      * apply Qlt_le_weak, Qnot_le_lt. intros L. apply Qle_bool_iff in L. congruence.
      * now apply Hd.
Qed.

Lemma sort_desc_descending (l : list Reference.Chunk) : descending (Reference.sort_desc l).
Proof.
  induction l as [|c r IH]; simpl; [constructor | now apply insert_desc_descending].
Qed.

Lemma descending_app (l1 l2 : list Reference.Chunk) (a b : Reference.Chunk) :
  descending (l1 ++ l2) -> In a l1 -> In b l2 ->
  (Reference.c_score b <= Reference.c_score a)%Q.
Proof.
  unfold descending. induction l1 as [|x r IH]; intros H Ha Hb; [contradiction|].
  simpl in H. inversion H as [|? ? Hr Hx]; subst.
  destruct Ha as [->|Ha].
  - rewrite Forall_forall in Hx. apply Hx, in_or_app. now right.
  - now apply IH.
Qed.

Lemma in_firstn {A} (k : nat) (l : list A) (x : A) : In x (firstn k l) -> In x l.
Proof.
  intros H. rewrite <- (firstn_skipn k l). apply in_or_app. now left.
Qed.

(** The selection of the reference transport is a choice of the top [k]. *)
Lemma select_is_top (k : nat) (t : Q) (l : list Reference.Chunk) :
  is_top k t l (Reference.select k t l).
Proof.
  unfold is_top, Reference.select.
  set (q := filter (fun c => Qle_bool t (Reference.c_score c)) l).
  split; [|split].
  - now rewrite length_firstn, sort_desc_length.
  - intros c Hc. apply in_firstn in Hc.
    apply (proj1 (sort_desc_In c q)) in Hc. unfold q in Hc.
    apply filter_In in Hc as [H1 H2].
    split; [exact H1 | now apply Qle_bool_iff].
  - intros c d Hc Ht Hout Hd.
    assert (Hq : In c (Reference.sort_desc q)).
    { apply sort_desc_In, filter_In. split; [exact Hc | now apply Qle_bool_iff]. }
    rewrite <- (firstn_skipn k (Reference.sort_desc q)) in Hq.
    apply in_app_or in Hq as [Hq|Hq]; [contradiction|].
    apply (@descending_app (firstn k (Reference.sort_desc q)) (skipn k (Reference.sort_desc q)));
      [|exact Hd | exact Hq].
    rewrite firstn_skipn. apply sort_desc_descending.
Qed.

(** ** Queries against the reference transport *)

Lemma count_of_topK (k : nat) : Reference.count_of (stringify (JInt (Z.of_nat k))) = Some k.
Proof.
  unfold JInt. cbn [stringify Reference.count_of]. now rewrite Qfloor_Z, Nat2Z.id.
Qed.

(** What the reference transport does with a plugin query. *)
Lemma reference_plugin_query (store : Reference.Store) (o : obj)
      (backend collection : string) (k : nat) (t : Q) :
  NoDup (keys o) ->
  obj_get o "backend" = JStr backend ->
  obj_get o "collectionId" = JStr collection ->
  obj_get o "topK" = JInt (Z.of_nat k) ->
  obj_get o "threshold" = JNum t ->
  Reference.server store (POST PLUGIN_QUERY_PATH o)
  = (store,
     Reference.respond
       (JObj [("results",
               JArr (map Reference.plugin_entry
                       (Reference.select k t
                          (scope backend collection (stringify (obj_get o "filters"))
                                 store))))])).
Proof.
  intros N Hb Hc Hk Ht. unfold Reference.server.
  change (body (POST PLUGIN_QUERY_PATH o)) with (Some (stringify (JObj o))).
  rewrite !path_is_POST.
  change (String.eqb PLUGIN_QUERY_PATH "/api/plugins/similharity/chunks/query") with true.
  cbv iota. unfold Reference.plugin_query.
  rewrite !body_get_stringify by exact N. rewrite Hb, Hc, Hk, Ht, count_of_topK.
  reflexivity.
Qed.

(** What the reference transport does with a native query. *)
Lemma reference_native_query (store : Reference.Store) (o : obj)
      (collection : string) (k : nat) (t : Q) :
  NoDup (keys o) ->
  obj_get o "collectionId" = JStr collection ->
  obj_get o "topK" = JInt (Z.of_nat k) ->
  obj_get o "threshold" = JNum t ->
  Reference.server store (POST NATIVE_QUERY_PATH o)
  = (store,
     Reference.respond
       (JObj [("hashes",
               JArr (map Reference.c_hash
                       (Reference.select k t (scope "vectra" collection JUndefined store))));
              ("metadata",
               JArr (map Reference.native_entry
                       (Reference.select k t (scope "vectra" collection JUndefined store))))])).
Proof.
  intros N Hc Hk Ht. unfold Reference.server.
  change (body (POST NATIVE_QUERY_PATH o)) with (Some (stringify (JObj o))).
  rewrite !path_is_POST.
  change (String.eqb NATIVE_QUERY_PATH "/api/plugins/similharity/chunks/query") with false.
  change (String.eqb NATIVE_QUERY_PATH "/api/vector/query") with true.
  cbv iota. unfold Reference.native_query.
  rewrite !body_get_stringify by exact N. rewrite Hc, Hk, Ht, count_of_topK.
  reflexivity.
Qed.

Lemma mapM_map {A B C} (g : A -> B) (f : B -> Result C) (h : A -> C) (l : list A) :
  (forall a, f (g a) = Ok (h a)) -> mapM f (map g l) = Ok (map h l).
Proof.
  intros H. induction l as [|a r IH]; simpl; [reflexivity|].
  now rewrite H, IH.
Qed.

(** The plugin adapters return the chunks of the answer as they come. *)
Lemma format_plugin_answer (found : list Reference.Chunk) :
  LanceDBBackend.format_results (JArr (map Reference.plugin_entry found))
  = Ok (query_result plugin_result_entry found).
Proof.
  unfold LanceDBBackend.format_results, js_map.
  rewrite (@mapM_map _ _ _ Reference.plugin_entry _ Reference.c_hash) by reflexivity.
  cbn [rbind].
  rewrite (@mapM_map _ _ _ Reference.plugin_entry _ plugin_result_entry) by reflexivity.
  reflexivity.
Qed.

Lemma nth_middle_map {A B} (f : A -> B) (pre rest : list A) (c : A) (d : B) :
  nth (List.length pre) (map f (pre ++ c :: rest)) d = f c.
Proof.
  rewrite map_app, app_nth2 by (rewrite length_map; lia).
  now rewrite length_map, Nat.sub_diag.
Qed.

Lemma normalize_native_entries (pre rest : list Reference.Chunk) :
  mapiM (fun m idx =>
           rbind (prop m "text") (fun m_text =>
           rbind (prop m "score") (fun m_score =>
           Ok (JObj (obj_assign
                       (obj_lit [("hash", at_index (JArr (map Reference.c_hash (pre ++ rest))) idx);
                                 ("text", m_text);
                                 ("score", js_or m_score (JInt 0))])
                       (own_props m))))))
        (List.length pre) (map Reference.native_entry rest)
  = Ok (map native_result_entry rest).
Proof.
  revert pre. induction rest as [|c r IH]; intros pre; [reflexivity|].
  cbn [map mapiM]. 
  replace (S (List.length pre)) with (List.length (pre ++ [c]))
    by (rewrite length_app; simpl; lia).
  replace (pre ++ c :: r) with ((pre ++ [c]) ++ r) by (now rewrite <- app_assoc).
  rewrite IH.
  replace ((pre ++ [c]) ++ r) with (pre ++ c :: r) by (now rewrite <- app_assoc).
  replace (List.length (pre ++ [c])) with (S (List.length pre))
    by (rewrite length_app; simpl; lia).
  unfold Reference.native_entry at 1. cbn [prop obj_get String.eqb Ascii.eqb Bool.eqb rbind].
  cbn [at_index]. rewrite nth_middle_map. reflexivity.
Qed.

(** The hybrid adapter returns the chunks of the answer as they come. *)
Lemma normalize_native_answer (found : list Reference.Chunk) :
  StandardBackend.normalize
    (JObj [("hashes", JArr (map Reference.c_hash found));
           ("metadata", JArr (map Reference.native_entry found))])
  = Ok (query_result native_result_entry found).
Proof.
  pose proof (normalize_native_entries [] found) as E.
  unfold StandardBackend.normalize.
  cbn [prop obj_get String.eqb Ascii.eqb Bool.eqb rbind js_or truthy js_mapi].
  match goal with
  | |- context [mapiM ?f 0 ?l] =>
      replace (mapiM f 0 l) with (Ok (map native_result_entry found))
        by (symmetry; exact E)
  end.
  reflexivity.
Qed.

(** A field of a request body that no provider parameter overrides. *)
Lemma body_field (host : Host) (settings : obj) (isQuery : bool) (o : obj) (k : string) :
  ~ In k PROVIDER_KEYS ->
  obj_get (obj_assign o (getProviderSpecificParams host settings isQuery)) k = obj_get o k.
Proof.
  intros N. apply obj_get_assign_absent. now apply providerParams_absent.
Qed.

Lemma body_NoDup (host : Host) (settings : obj) (isQuery : bool) (fields : obj) :
  NoDup (keys (obj_assign (obj_lit fields) (getProviderSpecificParams host settings isQuery))).
Proof. apply NoDup_keys_assign, NoDup_keys_lit. Qed.

Ltac body_fields :=
  first [ apply body_NoDup
        | rewrite body_field by (cbv; intuition discriminate); reflexivity ].

Lemma run_reference_plugin_query (host : Host) (store : Reference.Store) (o : obj)
      (backend collection : string) (k : nat) (t : Q) (err : Response -> JsError)
      (format : Json -> Result Json) :
  NoDup (keys o) ->
  obj_get o "backend" = JStr backend ->
  obj_get o "collectionId" = JStr collection ->
  obj_get o "topK" = JInt (Z.of_nat k) ->
  obj_get o "threshold" = JNum t ->
  (forall found, format (JArr (map Reference.plugin_entry found))
                 = Ok (query_result plugin_result_entry found)) ->
  result (run Reference.server
            (response <- fetch (POST PLUGIN_QUERY_PATH o) ;;
             if negb (ok response) then Throw (err response)
             else
               data <- json response ;;
               results <- lift (prop data "results") ;;
               lift (format results)) store)
  = Ok (query_result plugin_result_entry
          (Reference.select k t
             (scope backend collection (stringify (obj_get o "filters")) store))).
Proof.
  intros N Hb Hc Hk Ht Hf. cbn [fetch bind]. rewrite run_fetch_step.
  rewrite (@reference_plugin_query store o backend collection k t) by assumption.
  cbn [fst snd Reference.respond bind ok status negb json json_body lift prop obj_get
       String.eqb Ascii.eqb Bool.eqb Z.leb Z.compare Pos.compare Pos.compare_cont andb].
  rewrite Hf. reflexivity.
Qed.

Lemma quiet_bind {A B} (p : Async A) (f : A -> Async B) :
  quiet p -> (forall a, quiet (f a)) -> quiet (bind p f).
Proof. destruct p; simpl; auto. Qed.

Lemma quiet_lift {A} (r : Result A) : quiet (lift r).
Proof. now destruct r. Qed.

Lemma quiet_json (r : Response) : quiet (json r).
Proof. unfold json. now destruct (json_body r). Qed.

(** A method that fetches once and then only computes issues one request. *)
Lemma one_request {S A} (srv : Server S) (req : Request) (s : S) (k : Response -> Async A) :
  (forall r, quiet (k r)) ->
  trace (run srv (response <- fetch req ;; k response) s) = [req].
Proof.
  intros H. cbn [fetch bind]. rewrite run_fetch_step. cbn [trace].
  destruct (snd (srv s req)) as [|r]; cbn [bind run trace]; [reflexivity|].
  specialize (H r). destruct (k r); [reflexivity | reflexivity | contradiction].
Qed.


(** ** What a query forwards and what it returns *)









(** ** Multi-collection queries *)






Section Loop.
Context {S : Type} (srv : Server S) (step : obj -> string -> Async obj).


End Loop.











(** ** Inserting items *)

(** An empty item list is a no-op on every adapter: no request, no error. *)
Lemma insert_empty_noop {S} (srv : Server S) (s : S) (host : Host)
      (collectionId : string) (settings : obj) :
  run srv (StandardBackend.insertVectorItems host collectionId [] settings) s
  = mkRun s [] (Ok tt)
  /\ run srv (LanceDBBackend.insertVectorItems host collectionId [] settings) s
     = mkRun s [] (Ok tt)
  /\ run srv (QdrantBackend.insertVectorItems host collectionId [] settings) s
     = mkRun s [] (Ok tt)
  /\ run srv (MilvusBackend.insertVectorItems host collectionId [] settings) s
     = mkRun s [] (Ok tt).
Proof. repeat split. Qed.

Lemma stringify_numbers (v : list Q) : stringify (JArr (map JNum v)) = JArr (map JNum v).
Proof.
  cbn [stringify]. f_equal. rewrite map_map. apply map_ext. reflexivity.
Qed.

Lemma len_nonempty {A} (l : list A) (i : nat) (x : A) :
  nth_error l i = Some x -> (len l =? 0)%Z = false.
Proof.
  destruct l; [destruct i; discriminate|]. intros _. reflexivity.
Qed.

Lemma stringify_arr (xs : list Json) : stringify (JArr xs) = JArr (map wire_slot xs).
Proof. reflexivity. Qed.

Ltac distinct_keys :=
  first [ apply NoDup_keys_lit | repeat constructor; simpl; intuition discriminate ].

Ltac forwards_vector :=
  match goal with
  | Hi : nth_error ?items ?i = Some ?item, Hv : vector ?item = Some ?v |- _ =>
      rewrite (len_nonempty _ _ Hi);
      unfold sent;
      match goal with
      | |- context [run ?srv (bind (fetch ?q) ?k) ?s] =>
          let Ht := fresh "Ht" in
          destruct (run_one_request srv q s k) as [Ht _];
          [returns_or_throws | rewrite Ht; clear Ht]
      end;
      cbn [map body POST];
      rewrite body_get_stringify by body_fields;
      rewrite body_field by (cbv; intuition discriminate);
      cbn [obj_get obj_lit obj_assign fold_left obj_set String.eqb Ascii.eqb Bool.eqb fst snd];
      rewrite stringify_arr;
      eexists; eexists; split; [reflexivity|];
      split;
      [ rewrite map_map; apply map_nth_error; exact Hi
      | cbv beta; change (wire_slot (JObj ?o)) with (stringify (JObj o));
        rewrite body_get_stringify by distinct_keys;
        cbn [obj_get String.eqb Ascii.eqb Bool.eqb];
        unfold vector_of; rewrite Hv; apply stringify_numbers ]
  end.

(** On the plugin adapters every item that carries a vector has it in its
    entry of the insert request, whichever items of the list carry one. *)
Lemma plugin_insert_forwards {S} (srv : Server S) (s : S) (host : Host)
      (collectionId : string) (items : list VectorItem) (settings : obj)
      (i : nat) (item : VectorItem) (v : list Q) :
  nth_error items i = Some item ->
  vector item = Some v ->
  (exists entries e,
      sent "items" (run srv (LanceDBBackend.insertVectorItems host collectionId items settings) s)
      = [JArr entries]
      /\ nth_error entries i = Some e /\ body_get e "vector" = JArr (map JNum v))
  /\ (exists entries e,
         sent "items" (run srv (QdrantBackend.insertVectorItems host collectionId items settings) s)
         = [JArr entries]
         /\ nth_error entries i = Some e /\ body_get e "vector" = JArr (map JNum v))
  /\ (exists entries e,
         sent "items" (run srv (MilvusBackend.insertVectorItems host collectionId items settings) s)
         = [JArr entries]
         /\ nth_error entries i = Some e /\ body_get e "vector" = JArr (map JNum v)).
Proof.
  intros Hi Hv. split; [|split].
  - unfold LanceDBBackend.insertVectorItems. forwards_vector.
  - unfold QdrantBackend.insertVectorItems. forwards_vector.
  - unfold MilvusBackend.insertVectorItems. forwards_vector.
Qed.

(** C5: the evaluation of the hybrid adapter at the failing input.  With
    the item that carries the vector in second place, the insert request
    has no [embeddings] property and its items carry no vector, so the
    vector [[1/2]] of item "b" is not forwarded; with that item in first
    place the request carries it, and the Qdrant adapter forwards it in
    either order.  On an empty list every adapter does nothing. *)
Theorem insertVectorItems_first_item_decides {S} (srv : Server S) (s : S) (host : Host)
        (collectionId : string) (settings : obj) :
  sent "embeddings"
       (run (always accepted)
            (StandardBackend.insertVectorItems bare_host "vh:chat:a" mixed_items []) tt)
  = [JUndefined]
  /\ sent "items"
          (run (always accepted)
               (StandardBackend.insertVectorItems bare_host "vh:chat:a" mixed_items []) tt)
     = [JArr [JObj [("hash", JInt 1); ("text", JStr "a"); ("index", JInt 0)];
              JObj [("hash", JInt 2); ("text", JStr "b"); ("index", JInt 0)]]]
  /\ sent "embeddings"
          (run (always accepted)
               (StandardBackend.insertVectorItems bare_host "vh:chat:a" mixed_items_swapped [])
               tt)
     = [JObj [("b", JArr [JNum (1 # 2)])]]
  /\ sent "items"
          (run (always accepted)
               (QdrantBackend.insertVectorItems bare_host "vh:chat:a" mixed_items []) tt)
     = [JArr [JObj [("hash", JInt 1); ("text", JStr "a"); ("metadata", JObj [])];
              JObj [("hash", JInt 2); ("text", JStr "b"); ("vector", JArr [JNum (1 # 2)]);
                    ("metadata", JObj [])]]]
  /\ run srv (StandardBackend.insertVectorItems host collectionId [] settings) s
     = mkRun s [] (Ok tt).
Proof.
  split; [reflexivity|]. split; [reflexivity|]. split; [reflexivity|].
  split; reflexivity.
Qed.

(* ====================================================================== *)
(** * Further properties of the adapters *)
(* ====================================================================== *)

(** ** Running a method, continued *)

Ltac quiet_tac :=
  intros;
  repeat first
    [ exact I
    | apply quiet_lift
    | apply quiet_json
    | apply quiet_bind; [|intros ?]
    | match goal with |- quiet (if ?b then _ else _) => destruct b end
    | match goal with |- quiet (match ?x with _ => _ end) => destruct x end ].

Lemma quiet_run {S A} (srv : Server S) (p : Async A) (s : S) :
  quiet p -> final (run srv p s) = s /\ trace (run srv p s) = [].
Proof. destruct p; simpl; [now split | now split | contradiction]. Qed.

(** A method that fetches once and then only computes leaves the transport
    in the state that request led to. *)
Lemma one_request_final {S A} (srv : Server S) (req : Request) (s : S)
      (k : Response -> Async A) :
  (forall r, quiet (k r)) ->
  final (run srv (response <- fetch req ;; k response) s) = fst (srv s req).
Proof.
  intros H. cbn [fetch bind]. rewrite run_fetch_step. cbn [final].
  destruct (snd (srv s req)) as [|r]; cbn [bind run final]; [reflexivity|].
  apply quiet_run, H.
Qed.

(** What such a method returns is decided by the outcome of its request. *)
Lemma one_request_result {S A} (srv : Server S) (req : Request) (s : S)
      (k : Response -> Async A) :
  (forall r, quiet (k r)) ->
  result (run srv (response <- fetch req ;; k response) s)
  = match snd (srv s req) with
    | Rejected => Thrown NetworkError
    | Responded r => match k r with
                     | Return a => Ok a
                     | Throw e => Thrown e
                     | Fetch _ _ => Thrown NetworkError
                     end
    end.
Proof.
  intros H. cbn [fetch bind]. rewrite run_fetch_step. cbn [result].
  destruct (snd (srv s req)) as [|r]; cbn [bind run result]; [reflexivity|].
  specialize (H r). destruct (k r); [reflexivity | reflexivity | contradiction].
Qed.

Lemma trace_bind {S A B} (srv : Server S) (p : Async A) (f : A -> Async B) (s : S) :
  trace (run srv (bind p f) s)
  = trace (run srv p s)
    ++ match result (run srv p s) with
       | Ok a => trace (run srv (f a) (final (run srv p s)))
       | Thrown _ => []
       end.
Proof.
  rewrite run_bind. destruct (result (run srv p s)); cbn [trace];
    [reflexivity | now rewrite app_nil_r].
Qed.


(** ** Conversions to a string *)

Lemma encode_plain (h : Json) : plain_hash h = true -> encodeURIComponent h = Ok (Enc h).
Proof.
  destruct h; try discriminate; unfold encodeURIComponent; cbn [unprintable ill_formed];
    [reflexivity|].
  intros H. apply negb_true_iff in H. cbn [plain_hash] in H. now rewrite H.
Qed.

Lemma encode_surrogate (bad : string) :
  unpaired_surrogate bad = true -> encodeURIComponent (JStr bad) = Thrown URIError.
Proof. intros H. unfold encodeURIComponent. cbn [unprintable ill_formed]. now rewrite H. Qed.

Lemma primitive_printable (v : Json) : primitive v = true -> unprintable v = false.
Proof. destruct v; try reflexivity; discriminate. Qed.

Lemma plain_get (settings : obj) (k : string) :
  plain_settings settings -> primitive (obj_get settings k) = true.
Proof.
  intros H. induction H as [|[k' v] r Hv _ IH]; simpl; [reflexivity|].
  destruct (String.eqb k' k); [exact Hv | exact IH].
Qed.

Lemma plain_source (settings : obj) :
  plain_settings settings -> unprintable (source_of settings) = false.
Proof.
  intros H. apply primitive_printable. unfold source_of, js_or.
  destruct (truthy (obj_get settings "source")); [now apply plain_get | reflexivity].
Qed.

Lemma plain_model (settings : obj) :
  plain_settings settings -> unprintable (getModelFromSettings settings) = false.
Proof.
  intros H. apply primitive_printable. unfold getModelFromSettings.
  destruct (truthy _); [|reflexivity].
  destruct (getModelField _); try reflexivity.
  unfold js_or. destruct (truthy _); [now apply plain_get | reflexivity].
Qed.

(** The URL of a chunk is built when the hash and the settings are plain. *)
Ltac plain_url Hh Hs :=
  rewrite (encode_plain _ Hh); cbn [lift bind];
  unfold URLSearchParams;
  try unfold StandardBackend.chunk_query; try unfold LanceDBBackend.chunk_query;
  try unfold QdrantBackend.chunk_query; try unfold MilvusBackend.chunk_query;
  cbn [obj_lit obj_assign fold_left obj_set String.eqb Ascii.eqb Bool.eqb fst snd
       existsb unprintable orb];
  rewrite (plain_source Hs), (plain_model Hs); cbn [orb lift bind].


(** ** Collection identifiers, continued *)

(** X1: decoding loses nothing on a non-empty identifier: the identifier
    is the current-format or the legacy encoding of the decoded pair, or
    the decoded pair is [("chat", id)]. *)
Theorem parseCollectionId_reencodes (id : string) :
  id <> "" ->
  let t := QdrantBackend._parseCollectionId (JStr id) in
  MilvusBackend._parseCollectionId (JStr id) = t
  /\ (id = current_id_of t \/ id = legacy_id_of t \/ t = mkTenant "chat" id).
Proof.
  intros Hid t. split; [reflexivity|].
  unfold t, QdrantBackend._parseCollectionId.
  cbn [truthy is_string negb orb].
  apply String.eqb_neq in Hid. rewrite Hid. cbn [negb orb].
  destruct ((3 <=? List.length (split ":" id))%nat
            && String.eqb (nth 0 (split ":" id) "") "vh") eqn:E1.
  { left. apply split_shape in E1 as (ty & sid & _ & H2 & H3 & H4).
    unfold current_id_of. cbn [type sourceId]. now rewrite H3, H4. }
  destruct ((3 <=? List.length (split "_" id))%nat
            && String.eqb (nth 0 (split "_" id) "") "vecthare") eqn:E2.
  { right. left. apply split_shape in E2 as (ty & sid & _ & H2 & H3 & H4).
    unfold legacy_id_of. cbn [type sourceId]. now rewrite H3, H4. }
  right. right. reflexivity.
Qed.

Lemma parseCollectionId_reencodes_witness :
  "vh:doc:x:y" = current_id_of (QdrantBackend._parseCollectionId (JStr "vh:doc:x:y"))
  \/ "vh:doc:x:y" = legacy_id_of (QdrantBackend._parseCollectionId (JStr "vh:doc:x:y"))
  \/ QdrantBackend._parseCollectionId (JStr "vh:doc:x:y") = mkTenant "chat" "vh:doc:x:y".
Proof.
  apply (parseCollectionId_reencodes (id := "vh:doc:x:y")). discriminate.
Defined.

Lemma same_effect_one_request {S A B} (srv : Server S) (req : Request) (s : S)
      (k1 : Response -> Async A) (k2 : Response -> Async B) :
  (forall r, quiet (k1 r)) -> (forall r, quiet (k2 r)) ->
  same_effect (run srv (response <- fetch req ;; k1 response) s)
              (run srv (response <- fetch req ;; k2 response) s).
Proof.
  intros H1 H2. split.
  - now rewrite !one_request.
  - now rewrite !one_request_final.
Qed.

Ltac same_requests H :=
  cbv zeta; rewrite H; apply same_effect_one_request; quiet_tac.

(** X2: a multitenant adapter tells collections apart by the decoded pair
    alone: for two collection ids that decode to the same pair, listing,
    inserting, deleting, querying and purging issue the same requests and
    leave the store in the same state. *)
Theorem same_tenant_same_requests {S} (srv : Server S) (s : S) (host : Host)
        (limit : Z) (c1 c2 searchText : string) (topK : nat) (settings : obj)
        (items : list VectorItem) (hashes : list Json) :
  QdrantBackend._parseCollectionId (JStr c1) = QdrantBackend._parseCollectionId (JStr c2) ->
  (same_effect (run srv (QdrantBackend.getSavedHashes limit c1 settings) s)
               (run srv (QdrantBackend.getSavedHashes limit c2 settings) s)
   /\ same_effect (run srv (QdrantBackend.insertVectorItems host c1 items settings) s)
                  (run srv (QdrantBackend.insertVectorItems host c2 items settings) s)
   /\ same_effect (run srv (QdrantBackend.deleteVectorItems c1 hashes settings) s)
                  (run srv (QdrantBackend.deleteVectorItems c2 hashes settings) s)
   /\ same_effect (run srv (QdrantBackend.queryCollection host c1 searchText topK settings) s)
                  (run srv (QdrantBackend.queryCollection host c2 searchText topK settings) s)
   /\ same_effect (run srv (QdrantBackend.purgeVectorIndex c1 settings) s)
                  (run srv (QdrantBackend.purgeVectorIndex c2 settings) s))
  /\ (same_effect (run srv (MilvusBackend.getSavedHashes limit c1 settings) s)
                  (run srv (MilvusBackend.getSavedHashes limit c2 settings) s)
      /\ same_effect (run srv (MilvusBackend.insertVectorItems host c1 items settings) s)
                     (run srv (MilvusBackend.insertVectorItems host c2 items settings) s)
      /\ same_effect (run srv (MilvusBackend.deleteVectorItems c1 hashes settings) s)
                     (run srv (MilvusBackend.deleteVectorItems c2 hashes settings) s)
      /\ same_effect (run srv (MilvusBackend.queryCollection host c1 searchText topK settings) s)
                     (run srv (MilvusBackend.queryCollection host c2 searchText topK settings) s)
      /\ same_effect (run srv (MilvusBackend.purgeVectorIndex c1 settings) s)
                     (run srv (MilvusBackend.purgeVectorIndex c2 settings) s)).
Proof.
  intros H.
  assert (H' : MilvusBackend._parseCollectionId (JStr c1)
               = MilvusBackend._parseCollectionId (JStr c2)) by exact H.
  split; (split; [|split; [|split; [|split]]]).
  - unfold QdrantBackend.getSavedHashes. same_requests H.
  - unfold QdrantBackend.insertVectorItems.
    destruct (len items =? 0)%Z; [now split | same_requests H].
  - unfold QdrantBackend.deleteVectorItems. same_requests H.
  - unfold QdrantBackend.queryCollection, QdrantBackend.queryCollection_body.
    same_requests H.
  - unfold QdrantBackend.purgeVectorIndex. same_requests H.
  - unfold MilvusBackend.getSavedHashes. same_requests H'.
  - unfold MilvusBackend.insertVectorItems.
    destruct (len items =? 0)%Z; [now split | same_requests H'].
  - unfold MilvusBackend.deleteVectorItems. same_requests H'.
  - unfold MilvusBackend.queryCollection, MilvusBackend.queryCollection_body.
    same_requests H'.
  - unfold MilvusBackend.purgeVectorIndex. same_requests H'.
Qed.

(** The raw id ["abc"] and the current-format id ["vh:chat:abc"] name the
    same tenant: purging one purges the other. *)
Lemma same_tenant_same_requests_witness :
  same_effect (run Reference.server (QdrantBackend.purgeVectorIndex "abc" []) shared_store)
              (run Reference.server (QdrantBackend.purgeVectorIndex "vh:chat:abc" [])
                   shared_store).
Proof.
  destruct (@same_tenant_same_requests _ Reference.server shared_store bare_host 0
              "abc" "vh:chat:abc" "q" 1 [] [] [] eq_refl) as ((_ & _ & _ & _ & H) & _).
  exact H.
Defined.

(** ** Purging one tenant *)






(** ** The tenant filter *)












(** ** Reading one chunk *)

Ltac same_outcome :=
  rewrite !one_request_result by quiet_tac;
  let r := fresh "r" in
  let data := fresh "data" in
  let H := fresh "H" in
  match goal with
  | |- context [snd (?srv ?s ?q)] => destruct (snd (srv s q)) as [|r]
  end;
  [ split; intros H; discriminate H
  | destruct (negb (ok r)); [destruct (status r =? 404)%Z|];
    cbn [bind];
    [ tauto
    | split; intros H; discriminate H
    | unfold json; destruct (json_body r) as [data|]; cbn [bind];
      [ destruct (prop data "chunk"); cbn [lift]; tauto
      | split; intros H; discriminate H ] ] ].

(** X6: on the multitenant adapters [getChunk] does not depend on the
    collection id: for a plain hash and plain settings it issues, for any
    two ids, the same request, a GET whose query names the shared
    collection and has no tenant filter; it leaves the transport in the
    same state and returns the same chunk; only the text of a thrown error
    names the id. *)
Theorem getChunk_ignores_collection {S} (srv : Server S) (s : S)
        (c1 c2 : string) (hash : Json) (settings : obj) :
  plain_hash hash = true ->
  plain_settings settings ->
  (same_effect (run srv (QdrantBackend.getChunk c1 hash settings) s)
               (run srv (QdrantBackend.getChunk c2 hash settings) s)
   /\ trace (run srv (QdrantBackend.getChunk c1 hash settings) s)
      = [GET [Lit "/api/plugins/similharity/chunks/"; Enc hash; Lit "?";
              Params [("backend", JStr "qdrant");
                      ("collectionId", JStr "vecthare_main");
                      ("source", source_of settings);
                      ("model", getModelFromSettings settings)]]]
   /\ forall v, result (run srv (QdrantBackend.getChunk c1 hash settings) s) = Ok v
                <-> result (run srv (QdrantBackend.getChunk c2 hash settings) s) = Ok v)
  /\ (same_effect (run srv (MilvusBackend.getChunk c1 hash settings) s)
                  (run srv (MilvusBackend.getChunk c2 hash settings) s)
      /\ trace (run srv (MilvusBackend.getChunk c1 hash settings) s)
         = [GET [Lit "/api/plugins/similharity/chunks/"; Enc hash; Lit "?";
                 Params [("backend", JStr "milvus");
                         ("collectionId", JStr "vecthare_main");
                         ("source", source_of settings);
                         ("model", getModelFromSettings settings)]]]
      /\ forall v, result (run srv (MilvusBackend.getChunk c1 hash settings) s) = Ok v
                   <-> result (run srv (MilvusBackend.getChunk c2 hash settings) s) = Ok v).
Proof.
  intros Hh Hs. split; (split; [|split]).
  - unfold QdrantBackend.getChunk. cbv zeta. plain_url Hh Hs.
    apply same_effect_one_request; quiet_tac.
  - unfold QdrantBackend.getChunk. cbv zeta. plain_url Hh Hs.
    apply one_request. quiet_tac.
  - intros v. unfold QdrantBackend.getChunk. cbv zeta. plain_url Hh Hs. same_outcome.
  - unfold MilvusBackend.getChunk. cbv zeta. plain_url Hh Hs.
    apply same_effect_one_request; quiet_tac.
  - unfold MilvusBackend.getChunk. cbv zeta. plain_url Hh Hs.
    apply one_request. quiet_tac.
  - intros v. unfold MilvusBackend.getChunk. cbv zeta. plain_url Hh Hs. same_outcome.
Qed.

(** The chunk of hash ["abc"] asked for under two unrelated ids. *)
Lemma getChunk_ignores_collection_witness :
  same_effect (run (always not_found_answer)
                   (QdrantBackend.getChunk "vh:chat:a" (JStr "abc") []) tt)
              (run (always not_found_answer)
                   (QdrantBackend.getChunk "vh:doc:b" (JStr "abc") []) tt)
  /\ trace (run (always not_found_answer)
                (QdrantBackend.getChunk "vh:chat:a" (JStr "abc") []) tt)
     = [GET [Lit "/api/plugins/similharity/chunks/"; Enc (JStr "abc"); Lit "?";
             Params [("backend", JStr "qdrant");
                     ("collectionId", JStr "vecthare_main");
                     ("source", JStr "transformers");
                     ("model", JStr "")]]].
Proof.
  destruct (@getChunk_ignores_collection unit (always not_found_answer) tt
              "vh:chat:a" "vh:doc:b" (JStr "abc") [] eq_refl (Forall_nil _))
    as ((H1 & H2 & _) & _).
  split; [exact H1 | exact H2].
Defined.

Lemma not_found_is_not_ok (r : Response) : status r = 404%Z -> ok r = false.
Proof. unfold ok. intros ->. reflexivity. Qed.

Ltac chunk_statuses Hsrv :=
  rewrite one_request_result by quiet_tac; rewrite Hsrv;
  split; [|split];
  [ intros H404; rewrite (not_found_is_not_ok _ H404); cbn [negb];
    rewrite H404; reflexivity
  | intros Hok H404; rewrite Hok; cbn [negb];
    apply Z.eqb_neq in H404; rewrite H404; eexists; reflexivity
  | intros d Hok Hjson; rewrite Hok; cbn [negb bind]; unfold json; rewrite Hjson;
    reflexivity ].

(** X7: on the three plugin adapters [getChunk], for a plain hash and
    plain settings, returns [null] for status 404, throws an error for
    every other status outside 200..299, and returns the [chunk] property
    of a successful answer.  For a hash that holds an unpaired surrogate it
    throws a URIError, and for a hash that is an object with a [toString]
    property of its own a TypeError, without any request. *)
Theorem plugin_getChunk_statuses {S} (srv : Server S) (s : S) (r : Response)
        (collectionId : string) (hash : Json) (settings : obj) :
  (forall req, snd (srv s req) = Responded r) ->
  plain_hash hash = true ->
  plain_settings settings ->
  let lancedb := result (run srv (LanceDBBackend.getChunk collectionId hash settings) s) in
  let qdrant := result (run srv (QdrantBackend.getChunk collectionId hash settings) s) in
  let milvus := result (run srv (MilvusBackend.getChunk collectionId hash settings) s) in
  ((status r = 404%Z -> lancedb = Ok JNull)
   /\ (ok r = false -> status r <> 404%Z -> exists message, lancedb = Thrown (Error message))
   /\ (forall d, ok r = true -> json_body r = Some (JObj d) ->
         lancedb = Ok (obj_get d "chunk")))
  /\ ((status r = 404%Z -> qdrant = Ok JNull)
      /\ (ok r = false -> status r <> 404%Z -> exists message, qdrant = Thrown (Error message))
      /\ (forall d, ok r = true -> json_body r = Some (JObj d) ->
            qdrant = Ok (obj_get d "chunk")))
  /\ ((status r = 404%Z -> milvus = Ok JNull)
      /\ (ok r = false -> status r <> 404%Z -> exists message, milvus = Thrown (Error message))
      /\ (forall d, ok r = true -> json_body r = Some (JObj d) ->
            milvus = Ok (obj_get d "chunk")))
  /\ (forall bad, unpaired_surrogate bad = true ->
         run srv (LanceDBBackend.getChunk collectionId (JStr bad) settings) s
         = mkRun s [] (Thrown URIError)
         /\ run srv (QdrantBackend.getChunk collectionId (JStr bad) settings) s
            = mkRun s [] (Thrown URIError)
         /\ run srv (MilvusBackend.getChunk collectionId (JStr bad) settings) s
            = mkRun s [] (Thrown URIError))
  /\ (forall o, obj_has o "toString" = true ->
         (exists what,
             run srv (LanceDBBackend.getChunk collectionId (JObj o) settings) s
             = mkRun s [] (Thrown (TypeError what)))
         /\ (exists what,
                run srv (QdrantBackend.getChunk collectionId (JObj o) settings) s
                = mkRun s [] (Thrown (TypeError what)))
         /\ (exists what,
                run srv (MilvusBackend.getChunk collectionId (JObj o) settings) s
                = mkRun s [] (Thrown (TypeError what)))).
Proof.
  intros Hsrv Hh Hs lancedb qdrant milvus. split; [|split; [|split; [|split]]].
  - unfold lancedb, LanceDBBackend.getChunk. plain_url Hh Hs. chunk_statuses Hsrv.
  - unfold qdrant, QdrantBackend.getChunk. cbv zeta. plain_url Hh Hs. chunk_statuses Hsrv.
  - unfold milvus, MilvusBackend.getChunk. cbv zeta. plain_url Hh Hs. chunk_statuses Hsrv.
  - intros bad Hbad.
    unfold LanceDBBackend.getChunk, QdrantBackend.getChunk, MilvusBackend.getChunk.
    cbv zeta. rewrite (encode_surrogate _ Hbad). repeat split.
  - intros o Ho.
    unfold LanceDBBackend.getChunk, QdrantBackend.getChunk, MilvusBackend.getChunk.
    cbv zeta. unfold encodeURIComponent. cbn [unprintable]. rewrite Ho.
    repeat split; eexists; reflexivity.
Qed.

Lemma plugin_getChunk_statuses_witness :
  result (run (always (Responded (mkResponse 404 "Not Found" None None)))
              (QdrantBackend.getChunk "vh:chat:a" (JInt 7) []) tt) = Ok JNull
  /\ (exists message,
         result (run (always (Responded (mkResponse 503 "Unavailable" None None)))
                     (LanceDBBackend.getChunk "vh:chat:a" (JInt 7) []) tt)
         = Thrown (Error message))
  /\ run (always (Responded (mkResponse 404 "Not Found" None None)))
         (MilvusBackend.getChunk "vh:chat:a" (JStr lone_surrogate) []) tt
     = mkRun tt [] (Thrown URIError)
  /\ (exists what,
         run (always (Responded (mkResponse 404 "Not Found" None None)))
             (LanceDBBackend.getChunk "vh:chat:a" (JObj [("toString", JInt 1)]) []) tt
         = mkRun tt [] (Thrown (TypeError what))).
Proof.
  split; [|split; [|split]].
  - apply (@plugin_getChunk_statuses unit
             (always (Responded (mkResponse 404 "Not Found" None None))) tt
             (mkResponse 404 "Not Found" None None) "vh:chat:a" (JInt 7) []
             (fun _ => eq_refl) eq_refl (Forall_nil _)).
    reflexivity.
  - apply (@plugin_getChunk_statuses unit
             (always (Responded (mkResponse 503 "Unavailable" None None))) tt
             (mkResponse 503 "Unavailable" None None) "vh:chat:a" (JInt 7) []
             (fun _ => eq_refl) eq_refl (Forall_nil _)).
    + reflexivity.
    + discriminate.
  - apply (@plugin_getChunk_statuses unit
             (always (Responded (mkResponse 404 "Not Found" None None))) tt
             (mkResponse 404 "Not Found" None None) "vh:chat:a" (JInt 7) []
             (fun _ => eq_refl) eq_refl (Forall_nil _)).
    reflexivity.
  - apply (proj2 (proj2 (proj2 (proj2
             (@plugin_getChunk_statuses unit
                (always (Responded (mkResponse 404 "Not Found" None None))) tt
                (mkResponse 404 "Not Found" None None) "vh:chat:a" (JInt 7) []
                (fun _ => eq_refl) eq_refl (Forall_nil _)))))
             [("toString", JInt 1)] eq_refl).
Defined.

(** ** Listing the stored hashes *)






(** ** Purging every collection of the single-tenant adapter *)

(** A loop over values that all satisfy [P], whose turns issue one request
    each and always complete. *)
Lemma for_of_trace {S A St} (srv : Server S) (step : St -> A -> Async St)
      (req : A -> Request) (P : A -> Prop) :
  (forall s acc x, P x -> trace (run srv (step acc x) s) = [req x]) ->
  (forall s acc x, P x -> exists v, result (run srv (step acc x) s) = Ok v) ->
  forall xs acc s, Forall P xs ->
    trace (run srv (for_of xs acc step) s) = map req xs
    /\ exists v, result (run srv (for_of xs acc step) s) = Ok v.
Proof.
  intros Ht Hr. induction xs as [|x r IH]; intros acc s HP.
  - split; [reflexivity | now exists acc].
  - inversion HP as [|? ? Hx Hrest]; subst.
    cbn [for_of map]. rewrite trace_bind, run_bind, Ht by exact Hx.
    destruct (Hr s acc x Hx) as (v & Hv). rewrite Hv. cbn [app result].
    destruct (IH v (final (run srv (step acc x) s)) Hrest) as (IHt & w & IHr).
    split; [now rewrite IHt | now exists w].
Qed.








(** ** Capability probing *)

(** X10: [initialize] of the hybrid adapter never throws and sets the
    capability flag from the transport alone, whatever the flag and the
    settings were: the extension is available exactly when the probe is
    answered with a status in 200..299 and the initialisation request that
    follows is not rejected; the status of the initialisation answer is
    not looked at. *)
Theorem initialize_capability {S} (srv : Server S) (s : S)
        (this : StandardBackend.Instance) (settings : obj) :
  exists b,
    result (run srv (StandardBackend.initialize this settings) s)
    = Ok (StandardBackend.mkInstance b)
    /\ (b = true <->
        (exists r, snd (srv s PROBE) = Responded r /\ ok r = true)
        /\ snd (srv (fst (srv s PROBE)) INIT_VECTRA) <> Rejected)
    /\ (trace (run srv (StandardBackend.initialize this settings) s) = [PROBE]
        \/ trace (run srv (StandardBackend.initialize this settings) s)
           = [PROBE; INIT_VECTRA]).
Proof.
  unfold StandardBackend.initialize. fold PROBE. fold INIT_VECTRA.
  cbn [fetch bind try_catch]. rewrite run_fetch_step. cbn [result trace].
  destruct (snd (srv s PROBE)) as [|r] eqn:E; cbn [bind try_catch run result trace].
  - exists false. split; [reflexivity|]. split; [|now left].
    split; [discriminate|]. intros [(r & H & _) _]. discriminate H.
  - cbn [StandardBackend.pluginAvailable]. destruct (ok r) eqn:Hok.
    + cbn [fetch bind try_catch]. rewrite run_fetch_step. cbn [result trace].
      destruct (snd (srv (fst (srv s PROBE)) INIT_VECTRA)) as [|r2] eqn:E2;
        cbn [bind try_catch run result trace].
      * exists false. split; [reflexivity|]. split; [|now right].
        split; [discriminate|]. intros [_ H]. now contradiction H.
      * exists true. split; [reflexivity|]. split; [|now right].
        split; [|reflexivity]. intros _. split; [|discriminate].
        exists r. now split.
    + cbn [run result trace]. exists false. split; [reflexivity|]. split; [|now left].
      split; [discriminate|]. intros [(r' & H & Hok') _].
      injection H as <-. congruence.
Qed.



(** ** Provider parameters, continued *)

Lemma is_case_true (v : Json) (label : string) : is_case v label = true -> v = JStr label.
Proof.
  destruct v; simpl; try discriminate. intros H. apply String.eqb_eq in H. now subst.
Qed.

(** X12: the query-vs-insert flag changes the provider parameters for the
    Cohere provider only: for every other source the two calls return the
    same object, and for Cohere they differ in [input_type] alone. *)
Theorem isQuery_matters_for_cohere_only (host : Host) (settings : obj) :
  (is_case (obj_get settings "source") "cohere" = false ->
   getProviderSpecificParams host settings true = getProviderSpecificParams host settings false)
  /\ (is_case (obj_get settings "source") "cohere" = true ->
      getProviderSpecificParams host settings true = [("input_type", JStr "search_query")]
      /\ getProviderSpecificParams host settings false
         = [("input_type", JStr "search_document")]).
Proof.
  unfold getProviderSpecificParams. split; intros H.
  - rewrite H. reflexivity.
  - rewrite H. apply is_case_true in H. rewrite H. split; reflexivity.
Qed.

Lemma isQuery_matters_for_cohere_only_witness :
  getProviderSpecificParams bare_host [("source", JStr "ollama")] true
  = getProviderSpecificParams bare_host [("source", JStr "ollama")] false
  /\ getProviderSpecificParams bare_host [("source", JStr "cohere")] true
     = [("input_type", JStr "search_query")].
Proof.
  split.
  - apply (proj1 (isQuery_matters_for_cohere_only bare_host [("source", JStr "ollama")])).
    reflexivity.
  - apply (proj2 (isQuery_matters_for_cohere_only bare_host [("source", JStr "cohere")])).
    reflexivity.
Defined.

Ltac registered E :=
  apply is_case_true in E; eexists; eexists;
  split; [exact E|]; split; [reflexivity|]; intros; reflexivity.

(** X13: provider parameters are produced for registered providers only:
    when [getProviderSpecificParams] returns a non-empty object, the source
    is a key of [EMBEDDING_PROVIDERS], and an [apiUrl] parameter is produced
    only for a provider registered with [requiresUrl].  In the registry a
    provider has a model field exactly when it is registered with
    [requiresModel]. *)
Theorem provider_params_for_registered_only (host : Host) (settings : obj) (isQuery : bool)
        (id : string) :
  (getProviderSpecificParams host settings isQuery <> [] ->
   exists name cfg,
     obj_get settings "source" = JStr name
     /\ assoc name EMBEDDING_PROVIDERS = Some cfg
     /\ (obj_has (getProviderSpecificParams host settings isQuery) "apiUrl" = true ->
         requiresUrl cfg = true))
  /\ (getModelField (JStr id) <> JNull <->
      exists cfg, assoc id EMBEDDING_PROVIDERS = Some cfg /\ requiresModel cfg = true).
Proof.
  split.
  - unfold getProviderSpecificParams.
    destruct (is_case (obj_get settings "source") "extras") eqn:E1.
    { intros _. apply is_case_true in E1. eexists; eexists.
      split; [exact E1|]. split; [reflexivity|]. intros H; discriminate H. }
    destruct (is_case (obj_get settings "source") "cohere") eqn:E2.
    { intros _. apply is_case_true in E2. eexists; eexists.
      split; [exact E2|]. split; [reflexivity|]. intros H; discriminate H. }
    destruct (is_case (obj_get settings "source") "ollama") eqn:E3; [intros _; registered E3|].
    destruct (is_case (obj_get settings "source") "llamacpp") eqn:E4; [intros _; registered E4|].
    destruct (is_case (obj_get settings "source") "vllm") eqn:E5; [intros _; registered E5|].
    destruct (is_case (obj_get settings "source") "bananabread") eqn:E6;
      [intros _; registered E6|].
    destruct (is_case (obj_get settings "source") "palm") eqn:E7.
    { intros _. apply is_case_true in E7. eexists; eexists.
      split; [exact E7|]. split; [reflexivity|]. intros H; discriminate H. }
    destruct (is_case (obj_get settings "source") "vertexai") eqn:E8.
    { intros _. apply is_case_true in E8. eexists; eexists.
      split; [exact E8|]. split; [reflexivity|]. intros H; discriminate H. }
    intros H. now contradiction H.
  - unfold getModelField. cbn [key_name]. unfold EMBEDDING_PROVIDERS. cbn [assoc].
    repeat match goal with
           | |- context [String.eqb ?a id] => destruct (String.eqb a id)
           end;
      cbn [modelField requiresModel js_or truthy negb String.eqb Ascii.eqb Bool.eqb];
      (split;
       [ intros H; first [ now contradiction H | eexists; split; reflexivity ]
       | intros (cfg & Hc & Hm); first [ discriminate Hc
                                       | injection Hc as <-; first [ discriminate Hm
                                                                   | discriminate ] ] ]).
Qed.

(** The Ollama provider: registered, and registered with [requiresUrl]. *)
Lemma provider_params_for_registered_only_witness :
  exists name cfg,
    obj_get [("source", JStr "ollama")] "source" = JStr name
    /\ assoc name EMBEDDING_PROVIDERS = Some cfg
    /\ requiresUrl cfg = true.
Proof.
  destruct (proj1 (provider_params_for_registered_only bare_host [("source", JStr "ollama")]
                     false "ollama"))
    as (name & cfg & H1 & H2 & H3).
  - discriminate.
  - exists name, cfg. split; [exact H1|]. split; [exact H2|]. apply H3. reflexivity.
Defined.

(** ** The extended operations of the hybrid adapter *)

(** X14: on the hybrid adapter [getChunk] and [discoverCollections] never
    throw, whatever the capability flag and the transport: they issue at
    most one request, a GET to the extension, and return [null] when that
    request fails. *)
Theorem Standard_lookups_never_throw {S} (srv : Server S) (s : S)
        (this : StandardBackend.Instance) (collectionId : string) (hash : Json)
        (settings : obj) :
  ((exists v, result (run srv (StandardBackend.getChunk this collectionId hash settings) s)
              = Ok v)
   /\ (exists v, result (run srv (StandardBackend.discoverCollections this settings) s) = Ok v))
  /\ ((List.length (trace (run srv (StandardBackend.getChunk this collectionId hash settings) s))
       <= 1)%nat
      /\ Forall (fun q => to_extension q = true /\ method q = "GET")
                (trace (run srv (StandardBackend.getChunk this collectionId hash settings) s))
      /\ (List.length (trace (run srv (StandardBackend.discoverCollections this settings) s))
          <= 1)%nat
      /\ Forall (fun q => to_extension q = true /\ method q = "GET")
                (trace (run srv (StandardBackend.discoverCollections this settings) s)))
  /\ ((forall q, failed (snd (srv s q))) ->
      result (run srv (StandardBackend.getChunk this collectionId hash settings) s) = Ok JNull
      /\ result (run srv (StandardBackend.discoverCollections this settings) s) = Ok JNull).
Proof.
  assert (G : (exists v, result (run srv (StandardBackend.getChunk this collectionId hash
                                           settings) s) = Ok v)
              /\ (List.length (trace (run srv (StandardBackend.getChunk this collectionId hash
                                                 settings) s)) <= 1)%nat
              /\ Forall (fun q => to_extension q = true /\ method q = "GET")
                        (trace (run srv (StandardBackend.getChunk this collectionId hash
                                           settings) s))
              /\ ((forall q, failed (snd (srv s q))) ->
                  result (run srv (StandardBackend.getChunk this collectionId hash settings) s)
                  = Ok JNull)).
  { unfold StandardBackend.getChunk.
    destruct (StandardBackend.pluginAvailable this); cbn [negb];
      [|repeat split; [eexists; reflexivity | cbn; lia | constructor]].
    destruct (encodeURIComponent hash) as [encoded|e];
      cbn [lift bind try_catch run result trace];
      [|repeat split; [eexists; reflexivity | cbn; lia | constructor]].
    destruct (URLSearchParams _) as [query|e];
      cbn [lift bind try_catch run result trace];
      [|repeat split; [eexists; reflexivity | cbn; lia | constructor]].
    cbn [fetch bind try_catch]. rewrite run_fetch_step. cbn [result trace].
    destruct (snd (srv s _)) as [|r] eqn:E; cbn [bind try_catch run result trace].
    { split; [eexists; reflexivity|]. split; [cbn; lia|].
      split; [constructor; [split; reflexivity | constructor] | reflexivity]. }
    destruct (ok r) eqn:Hok; cbn [bind try_catch run result trace].
    2:{ split; [eexists; reflexivity|]. split; [cbn; lia|].
        split; [constructor; [split; reflexivity | constructor] | reflexivity]. }
    assert (N : (forall q, failed (snd (srv s q))) -> False).
    { intros H.
      match type of E with snd (srv s ?q) = _ => destruct (H q) as [F|(r' & F & Hr')] end;
        rewrite E in F; [discriminate|]. injection F as <-. congruence. }
    unfold json. destruct (json_body r) as [data|]; cbn [bind try_catch run result trace].
    2:{ split; [eexists; reflexivity|]. split; [cbn; lia|].
        split; [constructor; [split; reflexivity | constructor] | intros H; destruct (N H)]. }
    destruct (prop data "chunk") as [c|e]; cbn [lift bind try_catch run result trace];
      (split; [eexists; reflexivity|]; split; [cbn; lia|];
       split; [constructor; [split; reflexivity | constructor] | intros H; destruct (N H)]). }
  assert (D : (exists v, result (run srv (StandardBackend.discoverCollections this settings) s)
                         = Ok v)
              /\ (List.length (trace (run srv (StandardBackend.discoverCollections this
                                                 settings) s)) <= 1)%nat
              /\ Forall (fun q => to_extension q = true /\ method q = "GET")
                        (trace (run srv (StandardBackend.discoverCollections this settings) s))
              /\ ((forall q, failed (snd (srv s q))) ->
                  result (run srv (StandardBackend.discoverCollections this settings) s)
                  = Ok JNull)).
  { unfold StandardBackend.discoverCollections.
    destruct (StandardBackend.pluginAvailable this); cbn [negb bind run result trace];
      [|repeat split; [eexists; reflexivity | cbn; lia | constructor]].
    cbn [fetch bind try_catch]. rewrite run_fetch_step. cbn [result trace].
    destruct (snd (srv s _)) as [|r] eqn:E; cbn [bind try_catch run result trace].
    { split; [eexists; reflexivity|]. split; [cbn; lia|].
      split; [constructor; [split; reflexivity | constructor] | reflexivity]. }
    destruct (ok r) eqn:Hok; cbn [bind try_catch run result trace].
    2:{ split; [eexists; reflexivity|]. split; [cbn; lia|].
        split; [constructor; [split; reflexivity | constructor] | reflexivity]. }
    assert (N : (forall q, failed (snd (srv s q))) -> False).
    { intros H.
      match type of E with snd (srv s ?q) = _ => destruct (H q) as [F|(r' & F & Hr')] end;
        rewrite E in F; [discriminate|]. injection F as <-. congruence. }
    unfold json. destruct (json_body r) as [data|]; cbn [bind try_catch run result trace].
    2:{ split; [eexists; reflexivity|]. split; [cbn; lia|].
        split; [constructor; [split; reflexivity | constructor] | intros H; destruct (N H)]. }
    destruct (prop data "collections") as [c|e]; cbn [lift bind try_catch run result trace].
    2:{ split; [eexists; reflexivity|]. split; [cbn; lia|].
        split; [constructor; [split; reflexivity | constructor] | intros H; destruct (N H)]. }
    match goal with |- context [js_map ?a ?f] => destruct (js_map a f) end;
      cbn [lift bind try_catch run result trace];
      (split; [eexists; reflexivity|]; split; [cbn; lia|];
       split; [constructor; [split; reflexivity | constructor] | intros H; destruct (N H)]). }
  destruct G as (G1 & G2 & G3 & G4), D as (D1 & D2 & D3 & D4).
  split; [split; assumption|]. split; [repeat split; assumption|].
  intros H. split; [apply G4 | apply D4]; exact H.
Qed.

(** An instance that found the extension, against a transport that now
    rejects every request. *)
Lemma Standard_lookups_never_throw_witness :
  result (run (always Rejected)
              (StandardBackend.getChunk (StandardBackend.mkInstance true) "vh:chat:a" (JInt 7) [])
              tt) = Ok JNull
  /\ result (run (always Rejected)
                 (StandardBackend.discoverCollections (StandardBackend.mkInstance true) [])
                 tt) = Ok JNull.
Proof.
  apply (proj2 (proj2 (@Standard_lookups_never_throw unit (always Rejected) tt
                         (StandardBackend.mkInstance true) "vh:chat:a" (JInt 7) []))).
  intros q. now left.
Defined.




(** ** The fallback of the hybrid adapter's multi-collection query *)




(** ** The stored metadata of an inserted item *)

Lemma obj_get_assign_nil (src : obj) (k : string) :
  NoDup (keys src) -> obj_get (obj_assign [] src) k = obj_get src k.
Proof.
  intros N. destruct (obj_has src k) eqn:E.
  - now apply obj_get_assign_present.
  - rewrite obj_get_assign_absent by exact E. cbn [obj_get].
    symmetry. now apply obj_get_absent.
Qed.

Lemma NoDup_NAMED_FIELDS (item : VectorItem) : NoDup (keys (NAMED_FIELDS item)).
Proof. repeat constructor; cbn; intuition discriminate. Qed.

(** X17: in the metadata the Qdrant and Milvus adapters store with an
    inserted item, the nine fields copied by name shadow the properties of
    the same name in [item.metadata]: a named property of the stored
    metadata is the item's own field, and is missing from the request when
    that field is [undefined], whatever [item.metadata] says; every other
    property is that of [item.metadata]. *)
Theorem insert_named_fields_shadow_metadata (item : VectorItem) (k : string) :
  NoDup (keys (own_props (metadata_of item))) ->
  let payload := stringify (JObj (QdrantBackend.item_metadata item)) in
  MilvusBackend.item_metadata item = QdrantBackend.item_metadata item
  /\ (obj_has (NAMED_FIELDS item) k = true ->
      body_get payload k = stringify (obj_get (NAMED_FIELDS item) k))
  /\ (obj_has (NAMED_FIELDS item) k = false ->
      body_get payload k = stringify (obj_get (own_props (metadata_of item)) k)).
Proof.
  intros N payload. split; [reflexivity|].
  unfold payload, QdrantBackend.item_metadata. fold (NAMED_FIELDS item).
  rewrite body_get_stringify by (apply NoDup_keys_assign, NoDup_keys_assign; constructor).
  split; intros H.
  - now rewrite obj_get_assign_present by (first [apply NoDup_NAMED_FIELDS | exact H]).
  - rewrite obj_get_assign_absent by exact H. now rewrite obj_get_assign_nil.
Qed.

(** The importance of the metadata object is lost, its note is kept. *)
Lemma insert_named_fields_shadow_metadata_witness :
  body_get (stringify (JObj (QdrantBackend.item_metadata annotated_item))) "importance"
  = JUndefined
  /\ body_get (stringify (JObj (QdrantBackend.item_metadata annotated_item))) "note"
     = JStr "n".
Proof.
  split.
  - apply (proj1 (proj2 (insert_named_fields_shadow_metadata annotated_item "importance"
                           ltac:(repeat constructor; cbn; intuition discriminate)))).
    reflexivity.
  - apply (proj2 (proj2 (insert_named_fields_shadow_metadata annotated_item "note"
                           ltac:(repeat constructor; cbn; intuition discriminate)))).
    reflexivity.
Defined.

(** ** Failed writes *)




(** ** Collections of the single-tenant adapters *)




(** ** Listing the stored hashes on the hybrid adapter *)


